(** * dynamoclasses: a shallow embedding of the marshalling layer

    The development follows [src/dynamoclasses/__init__.py].  Python
    dictionaries are association lists in insertion order with the
    interpreter's update-in-place semantics, exceptions are values of
    [pyexc] threaded through an error monad, and the boto3 client is a
    state machine whose calls are logged.

    Python's builtins are not part of the repository.  Text, integers,
    bytes and booleans are modelled concretely, with the interpreter's
    limit on the digits of an integer that is written as text or read
    from it; floating point numbers, [json.loads] and the [repr] of
    containers are interfaces ([PyFloat], [PyLib]) that the embedding
    is parametric in. *)

From Stdlib Require Import String Ascii List ZArith Lia Bool.
From Stdlib.Strings Require Import Byte.
From Stdlib Require Import DecimalString DecimalZ DecimalPos.
Import ListNotations.
Local Open Scope string_scope.
Local Open Scope Z_scope.

(** ** Exceptions and the error monad *)

(** The names of Python's type objects that occur in the development:
    the six types that key [TYPE_MAPPING], [NoneType] (the type of
    [None], which does not key it) and [list], a type outside of it. *)
Inductive pytype : Type :=
| Tstr | Tfloat | Tint | Tbytes | Tdict | Tbool | TNoneType | Tlist.

(** Hashable objects used as dictionary keys and as annotations: a type
    object, the object [None], or a string. *)
Inductive pykey : Type :=
| KType (t : pytype)
| KNone
| KStr (s : string).

(** Exceptions by class.  [Exception], [ValueError] and
    [ItemNotFoundError] carry their message, and [KeyError] the missing
    key.  [JSONDecodeError] is the subclass of [ValueError] that
    [json.loads] raises. *)
Inductive pyexc : Type :=
| Exception (msg : string)
| ValueError (msg : string)
| ItemNotFoundError (msg : string)
| KeyError (k : pykey)
| TypeError
| IndexError
| OverflowError
| JSONDecodeError
| ClientError (msg : string).

Inductive result (A : Type) : Type :=
| Ok (a : A)
| Raise (e : pyexc).
Arguments Ok {A} a.
Arguments Raise {A} e.

Definition bind {A B} (m : result A) (k : A -> result B) : result B :=
  match m with
  | Ok a => k a
  | Raise e => Raise e
  end.

Notation "x <- m ;; k" := (bind m (fun x => k))
  (at level 61, m at next level, right associativity).

Definition of_option {A} (o : option A) (e : pyexc) : result A :=
  match o with
  | Some a => Ok a
  | None => Raise e
  end.

(** A comprehension or [for] loop that evaluates [f] on each element in
    order and stops at the first exception. *)
Fixpoint mapM {A B} (f : A -> result B) (l : list A) : result (list B) :=
  match l with
  | [] => Ok []
  | x :: l' => y <- f x ;; ys <- mapM f l' ;; Ok (y :: ys)
  end.

Definition is_ok {A} (m : result A) : bool :=
  match m with Ok _ => true | Raise _ => false end.

(** ** Dictionaries *)

Section Dict.
Context {K V : Type} (eqb : K -> K -> bool).

Fixpoint dict_get (d : list (K * V)) (k : K) : option V :=
    match d with
    | [] => None
    | (k', v) :: d' => if eqb k' k then Some v else dict_get d' k
    end.

(** [d[k] = v]: replaces the value in place when [k] is present and
    appends the entry otherwise. *)
Fixpoint dict_set (d : list (K * V)) (k : K) (v : V) : list (K * V) :=
    match d with
    | [] => [(k, v)]
    | (k', v') :: d' =>
        if eqb k' k then (k', v) :: d' else (k', v') :: dict_set d' k v
    end.

Definition dict_mem (d : list (K * V)) (k : K) : bool :=
    match dict_get d k with Some _ => true | None => false end.
End Dict.

(** Field names reach the code as Python objects: a string, or [None]
    when a keyword was left at its default. *)
Definition name := option string.

Definition name_eqb (a b : name) : bool :=
  match a, b with
  | Some x, Some y => String.eqb x y
  | None, None => true
  | _, _ => false
  end.

Definition key_of_name (n : name) : pykey :=
  match n with Some s => KStr s | None => KNone end.

(** [str(n)] as an f-string renders it. *)
Definition name_str (n : name) : string :=
  match n with Some s => s | None => "None" end.

Definition pytype_eqb (a b : pytype) : bool :=
  match a, b with
  | Tstr, Tstr | Tfloat, Tfloat | Tint, Tint | Tbytes, Tbytes
  | Tdict, Tdict | Tbool, Tbool | TNoneType, TNoneType | Tlist, Tlist => true
  | _, _ => false
  end.

Definition pykey_eqb (a b : pykey) : bool :=
  match a, b with
  | KType s, KType t => pytype_eqb s t
  | KNone, KNone => true
  | KStr s, KStr t => String.eqb s t
  | _, _ => false
  end.

(** ** The [repr] of text and of bytes *)

Definition hex_digit (n : nat) : ascii :=
  nth n (list_ascii_of_string "0123456789abcdef") "0"%char.

Fixpoint string_mem (c : ascii) (s : string) : bool :=
  match s with
  | EmptyString => false
  | String c' s' => Ascii.eqb c c' || string_mem c s'
  end.

(** The double quote character. *)
Definition dquote : ascii := ascii_of_nat 34.

(** One byte of [repr(bytes)] under the quote character [q]. *)
Definition bytes_repr_char (q c : ascii) : string :=
  let n := nat_of_ascii c in
  if Ascii.eqb c q || Ascii.eqb c "\" then String "\" (String c EmptyString)
  else if (n =? 9)%nat then "\t"
  else if (n =? 10)%nat then "\n"
  else if (n =? 13)%nat then "\r"
  else if (n <? 32)%nat || (127 <=? n)%nat then
    String "\" (String "x" (String (hex_digit (n / 16))
                              (String (hex_digit (n mod 16)) EmptyString)))
  else String c EmptyString.

(** [repr(b)] for bytes, which is what [str(b)] returns: single quotes
    unless the bytes hold a single quote and no double quote. *)
Definition bytes_repr (b : list byte) : string :=
  let s := string_of_list_byte b in
  let q := if string_mem "'" s && negb (string_mem dquote s)
           then dquote else "'"%char in
  String "b" (String q
    (String.concat EmptyString (map (bytes_repr_char q) (list_ascii_of_string s))
     ++ String q EmptyString)).

(** One character of [repr(s)] for a text under the quote character
    [q]: as for bytes, but the printable characters above U+007F, which
    are those from U+00A1 on without U+00AD, stand for themselves. *)
Definition str_repr_char (q c : ascii) : string :=
  let n := nat_of_ascii c in
  if (161 <=? n)%nat && negb (n =? 173)%nat then String c EmptyString
  else bytes_repr_char q c.

(** [repr(s)] for a text. *)
Definition str_repr (s : string) : string :=
  let q := if string_mem "'" s && negb (string_mem dquote s)
           then dquote else "'"%char in
  String q
    (String.concat EmptyString (map (str_repr_char q) (list_ascii_of_string s))
     ++ String q EmptyString).

(** ** Integer literals: [str(n)] and [int(text)] *)

(** [sys.get_int_max_str_digits()]: the most digits an integer may have
    when it is converted to decimal text or read from it.  The module
    leaves it at the interpreter's default. *)
Definition int_max_str_digits : Z := 4300.

(** The decimal digits of [z], after a minus sign when it is negative. *)
Definition decimal (z : Z) : string := NilZero.string_of_int (Z.to_int z).

Definition is_digit (c : ascii) : bool :=
  let n := nat_of_ascii c in (48 <=? n)%nat && (n <=? 57)%nat.

(** The number of digits in a text. *)
Fixpoint count_digits (s : string) : Z :=
  match s with
  | EmptyString => 0
  | String c s' => (if is_digit c then 1 else 0) + count_digits s'
  end.

(** The [ValueError] of [str(n)] on an integer with too many digits. *)
Definition too_many_digits : pyexc :=
  ValueError ("Exceeds the limit (4300 digits) for integer string conversion; "
              ++ "use sys.set_int_max_str_digits() to increase the limit").

(** The [ValueError] of [int(text)] on a literal of [n] digits, too many. *)
Definition too_long_literal (n : Z) : pyexc :=
  ValueError ("Exceeds the limit (4300 digits) for integer string conversion: "
              ++ "value has " ++ decimal n ++ " digits; "
              ++ "use sys.set_int_max_str_digits() to increase the limit").

(** The [ValueError] of [int] on a text or on bytes that are no literal;
    [shown] is the [repr] of the argument, of which the message takes
    the first 200 characters. *)
Definition invalid_int (shown : string) : pyexc :=
  ValueError ("invalid literal for int() with base 10: " ++ substring 0 200 shown).

(** The integer has no more digits than the limit. *)
Definition int_fits (z : Z) : bool :=
  count_digits (decimal z) <=? int_max_str_digits.

(** [str(z)] for an integer *)
Definition int_str (z : Z) : result string :=
  if int_fits z then Ok (decimal z) else Raise too_many_digits.

(** White space as [int] skips it around a literal: the blank and the
    control characters from tab to carriage return. *)
Definition is_space (c : ascii) : bool :=
  let n := nat_of_ascii c in
  (n =? 32)%nat || ((9 <=? n)%nat && (n <=? 13)%nat).

(** Before [int] parses a [str] it turns the white space that is not
    ASCII into blanks.  Among the characters below U+0100, which are the
    ones a [string] holds, that is U+0085 and U+00A0. *)
Fixpoint ascii_spaces (s : string) : string :=
  match s with
  | EmptyString => EmptyString
  | String c s' =>
      let n := nat_of_ascii c in
      String (if (n =? 133)%nat || (n =? 160)%nat then " "%char else c)
             (ascii_spaces s')
  end.

(** Texts of ASCII characters only. *)
Fixpoint is_ascii_text (s : string) : bool :=
  match s with
  | EmptyString => true
  | String c s' => (nat_of_ascii c <? 128)%nat && is_ascii_text s'
  end.

Fixpoint lstrip (s : string) : string :=
  match s with
  | String c s' => if is_space c then lstrip s' else s
  | EmptyString => EmptyString
  end.

Fixpoint rstrip (s : string) : string :=
  match s with
  | String c s' =>
      match rstrip s' with
      | EmptyString => if is_space c then EmptyString else String c EmptyString
      | r => String c r
      end
  | EmptyString => EmptyString
  end.

Definition strip (s : string) : string := rstrip (lstrip s).

(** Digits with single underscores between them; [prev] tells whether the
    previous character was a digit.  The underscores are dropped. *)
Fixpoint ungroup (prev : bool) (s : string) : option string :=
  match s with
  | EmptyString => if prev then Some EmptyString else None
  | String c s' =>
      if is_digit c then option_map (String c) (ungroup true s')
      else if Ascii.eqb c "_" && prev then ungroup false s'
      else None
  end.

Definition nat_of_digits (s : string) : option Z :=
  match ungroup false s with
  | Some ds => option_map Z.of_int (NilZero.int_of_string ds)
  | None => None
  end.

(** The value of a literal in base 10: surrounding white space, an
    optional sign, digits.  [None] when the text is no literal. *)
Definition int_of_literal (s : string) : option Z :=
  match strip s with
  | String "-" r => option_map Z.opp (nat_of_digits r)
  | String "+" r => nat_of_digits r
  | r => nat_of_digits r
  end.

(** What follows the white space and the sign at the head of a text. *)
Definition unsigned_part (s : string) : string :=
  match lstrip s with
  | String "-" r => r
  | String "+" r => r
  | r => r
  end.

(** The run of digits and underscores that [int] scans before it looks
    at what follows: the number of digits in the run, or [None] when two
    underscores meet or one ends the run.  [underscore] tells whether
    the previous character was one. *)
Fixpoint scan_digits (underscore : bool) (s : string) : option Z :=
  match s with
  | EmptyString => if underscore then None else Some 0
  | String c s' =>
      if is_digit c then option_map Z.succ (scan_digits false s')
      else if Ascii.eqb c "_" then
        if underscore then None else scan_digits true s'
      else if underscore then None else Some 0
  end.

(** [int] on the ASCII form [s] of its argument, whose [repr] is
    [shown].  The digits are counted against the limit as soon as they
    are scanned, before the end of the text is looked at. *)
Definition int_of_text (shown s : string) : result Z :=
  let r := unsigned_part s in
  match r with
  | String c _ =>
      if Ascii.eqb c "_" then Raise (invalid_int shown)
      else
        match scan_digits false r with
        | None => Raise (invalid_int shown)
        | Some n =>
            if int_max_str_digits <? n then Raise (too_long_literal n)
            else of_option (int_of_literal s) (invalid_int shown)
        end
  | EmptyString => Raise (invalid_int shown)
  end.

(** Texts made of digits only, and texts without white space: the shapes
    [str(n)] produces. *)
Fixpoint all_digits (s : string) : bool :=
  match s with
  | EmptyString => true
  | String c s' => is_digit c && all_digits s'
  end.


(** ** Floating point numbers *)

(** The interface of Python's [float] that the marshalling code relies
    on.  [float_of_literal] is [float(text)] for a [str], with [None]
    for the [ValueError] of a malformed literal; [float_of_int] is [float(n)],
    with [None] for the [OverflowError] of an integer out of range;
    [int_of_float] is [int(x)], which raises on infinities and NaN;
    [float_bool] is the truth value [x != 0.0]. *)
Class PyFloat : Type := {
  pyfloat : Type;
  float_str : pyfloat -> string;
  float_of_literal : string -> option pyfloat;
  float_of_int : Z -> option pyfloat;
  int_of_float : pyfloat -> result Z;
  float_bool : pyfloat -> bool
}.

(** ** Values *)

Section Values.
Context {F : PyFloat}.

(** Native values.  A [str] is a text of characters below U+0100, and a
    [dict] keeps its entries in insertion order. *)
#[warnings="-register-all"]
Inductive pyval : Type :=
  | VStr (s : string)
  | VInt (z : Z)
  | VFloat (x : pyfloat)
  | VBytes (b : list byte)
  | VDict (d : list (pyval * pyval))
  | VBool (b : bool)
  | VNone
  | VList (l : list pyval).

(** [type(v)] *)
Definition type_of (v : pyval) : pytype :=
    match v with
    | VStr _ => Tstr
    | VInt _ => Tint
    | VFloat _ => Tfloat
    | VBytes _ => Tbytes
    | VDict _ => Tdict
    | VBool _ => Tbool
    | VNone => TNoneType
    | VList _ => Tlist
    end.

(** The rest of the standard library the code calls: [json.loads] on
    text, the [repr] of a list or dictionary (which raises when the
    [repr] of an element does), and the dictionary that [dict(iterable)]
    builds from the items of an iterable. *)
Class PyLib : Type := {
    json_loads : string -> result pyval;
    container_repr : pyval -> result string;
    dict_of_items : list pyval -> result (list (pyval * pyval))
  }.
End Values.

Arguments pyval {F}.
Arguments PyLib {F}.

(** ** Builtins on values *)

Section Builtins.
Context {F : PyFloat} {L : PyLib}.

(** [str(v)], which is also what an f-string makes of [v]. *)
Definition py_str (v : pyval) : result string :=
    match v with
    | VStr s => Ok s
    | VInt z => int_str z
    | VFloat x => Ok (float_str x)
    | VBytes b => Ok (bytes_repr b)
    | VBool true => Ok "True"
    | VBool false => Ok "False"
    | VNone => Ok "None"
    | VDict _ | VList _ => container_repr v
    end.

(** [bool(v)] *)
Definition py_bool (v : pyval) : bool :=
    match v with
    | VStr s => negb (String.eqb s EmptyString)
    | VInt z => negb (z =? 0)
    | VFloat x => float_bool x
    | VBytes b => match b with [] => false | _ => true end
    | VDict d => match d with [] => false | _ => true end
    | VBool b => b
    | VNone => false
    | VList l => match l with [] => false | _ => true end
    end.

(** The [ValueError] of [float] on a text or on bytes that are no
    literal; [shown] is the [repr] of the argument. *)
Definition invalid_float (shown : string) : pyexc :=
    ValueError ("could not convert string to float: " ++ shown).

(** [int(v)] *)
Definition py_int (v : pyval) : result pyval :=
    match v with
    | VStr s => z <- int_of_text (str_repr s) (ascii_spaces s) ;; Ok (VInt z)
    | VBytes b =>
        z <- int_of_text (bytes_repr b) (string_of_list_byte b) ;; Ok (VInt z)
    | VInt z => Ok (VInt z)
    | VBool b => Ok (VInt (Z.b2z b))
    | VFloat x => z <- int_of_float x ;; Ok (VInt z)
    | VDict _ | VNone | VList _ => Raise TypeError
    end.

(** [float(v)].  Bytes are read as the text of the same ASCII
    characters is; no literal has a byte outside ASCII. *)
Definition py_float (v : pyval) : result pyval :=
    match v with
    | VStr s =>
        x <- of_option (float_of_literal s) (invalid_float (str_repr s)) ;;
        Ok (VFloat x)
    | VBytes b =>
        let s := string_of_list_byte b in
        if is_ascii_text s
        then x <- of_option (float_of_literal s) (invalid_float (bytes_repr b)) ;;
             Ok (VFloat x)
        else Raise (invalid_float (bytes_repr b))
    | VInt z => x <- of_option (float_of_int z) OverflowError ;; Ok (VFloat x)
    | VBool b => x <- of_option (float_of_int (Z.b2z b)) OverflowError ;; Ok (VFloat x)
    | VFloat x => Ok (VFloat x)
    | VDict _ | VNone | VList _ => Raise TypeError
    end.

(** [list(v)] *)
Definition py_list (v : pyval) : result (list pyval) :=
    match v with
    | VList l => Ok l
    | VStr s => Ok (map (fun c => VStr (String c EmptyString)) (list_ascii_of_string s))
    | VBytes b => Ok (map (fun x => VInt (Z.of_N (Byte.to_N x))) b)
    | VDict d => Ok (map fst d)
    | VInt _ | VFloat _ | VBool _ | VNone => Raise TypeError
    end.

(** One element of the iterable given to [bytes]. *)
Definition byte_of (e : pyval) : result byte :=
    let of_Z z :=
      if (0 <=? z) && (z <? 256)
      then of_option (Byte.of_N (Z.to_N z)) (ValueError "bytes must be in range(0, 256)")
      else Raise (ValueError "bytes must be in range(0, 256)") in
    match e with
    | VInt z => of_Z z
    | VBool b => of_Z (Z.b2z b)
    | _ => Raise TypeError
    end.

(** [bytes(v)]: a copy of bytes, [n] zero bytes for an integer [n],
    the bytes an iterable of small integers lists.  A count above
    [sys.maxsize], taken on a 64-bit build, is an [OverflowError]; below
    it memory is taken to suffice. *)
Definition py_bytes (v : pyval) : result pyval :=
    match v with
    | VBytes b => Ok (VBytes b)
    | VInt z =>
        if z <? 0 then Raise (ValueError "negative count")
        else if 2 ^ 63 <=? z then Raise OverflowError
        else Ok (VBytes (repeat x00 (Z.to_nat z)))
    | VBool b => Ok (VBytes (repeat x00 (Z.to_nat (Z.b2z b))))
    | VList l => b <- mapM byte_of l ;; Ok (VBytes b)
    | VDict d => b <- mapM byte_of (map fst d) ;; Ok (VBytes b)
    | VStr _ | VFloat _ | VNone => Raise TypeError
    end.

(** [dict(v)] *)
Definition py_dict (v : pyval) : result pyval :=
    match v with
    | VDict d => Ok (VDict d)
    | _ => l <- py_list v ;; d <- dict_of_items l ;; Ok (VDict d)
    end.

(** Calling an annotation object [t] on one argument, [t(v)].  The
    type objects construct; [NoneType] takes no argument; [None] and
    strings are not callable. *)
Definition py_call (t : pykey) (v : pyval) : result pyval :=
    match t with
    | KType Tstr => s <- py_str v ;; Ok (VStr s)
    | KType Tfloat => py_float v
    | KType Tint => py_int v
    | KType Tbytes => py_bytes v
    | KType Tdict => py_dict v
    | KType Tbool => Ok (VBool (py_bool v))
    | KType Tlist => l <- py_list v ;; Ok (VList l)
    | KType TNoneType => Raise TypeError
    | KNone => Raise TypeError
    | KStr _ => Raise TypeError
    end.

(** [json.loads(v)]: text is parsed, anything else is a [TypeError]. *)
Definition py_json_loads (v : pyval) : result pyval :=
    match v with
    | VStr s => json_loads s
    | VBytes b => json_loads (string_of_list_byte b)
    | _ => Raise TypeError
    end.
End Builtins.

(** ** The module [dynamoclasses] *)

Section Dynamoclasses.
Context {F : PyFloat} {L : PyLib}.

(** *** Wire format *)

(** [{wire_key: value}], the tagged value of one attribute. *)
Definition tagged : Type := list (string * pyval).

(** [{field_name: {wire_key: value}}] as the client receives and returns it. *)
Definition wire_item : Type := list (string * tagged).

(** The [Key] dictionary of [get_item]; it is keyed by the names stored
    in [__dynamoclass_params__]. *)
Definition key_item : Type := list (name * tagged).

(** One value of [TYPE_MAPPING]: [{"key": ..., "fn": ...}]. *)
Record mapping : Type := { key : string; fn : pyval -> result pyval }.

Definition TYPE_MAPPING : list (pykey * mapping) :=
  [ (KType Tstr,   {| key := "S";    fn := fun x => s <- py_str x ;; Ok (VStr s) |});
    (KType Tfloat, {| key := "N";    fn := fun x => s <- py_str x ;; Ok (VStr s) |});
    (KType Tint,   {| key := "N";    fn := fun x => s <- py_str x ;; Ok (VStr s) |});
    (KType Tbytes, {| key := "B";    fn := fun x => s <- py_str x ;; Ok (VStr s) |});
    (KType Tdict,  {| key := "M";    fn := fun x => Ok x |});
    (KType Tbool,  {| key := "BOOL"; fn := fun x => Ok x |});
    (KNone,        {| key := "NULL"; fn := fun x => Ok x |}) ].

(** [TYPE_MAPPING[k]] *)
Definition type_mapping (k : pykey) : result mapping :=
  of_option (dict_get pykey_eqb TYPE_MAPPING k) (KeyError k).

(** [t in TYPE_MAPPING] for a type object [t]. *)
Definition registered (t : pytype) : bool :=
  match dict_get pykey_eqb TYPE_MAPPING (KType t) with
  | Some _ => true
  | None => false
  end.

(** The tagged value the specification gives for a native value: String
    to [S] by stringification, Number to [N] as a decimal string, Binary
    to [B] by stringification of the bytes, Map to [M], Bool to [BOOL]
    and Null to [NULL] passed through.  Other kinds have none. *)
Definition spec_encode (v : pyval) : option tagged :=
  match v with
  | VStr s => Some [("S", VStr s)]
  | VInt z => Some [("N", VStr (decimal z))]
  | VFloat x => Some [("N", VStr (float_str x))]
  | VBytes b => Some [("B", VStr (bytes_repr b))]
  | VDict d => Some [("M", VDict d)]
  | VBool b => Some [("BOOL", VBool b)]
  | VNone => Some [("NULL", VNone)]
  | VList _ => None
  end.

(** *** The storage client *)

Record put_item_request : Type :=
  { put_TableName : name; put_Item : wire_item }.

Record get_item_request : Type :=
  { get_TableName : name; get_Key : key_item }.

Record query_request : Type :=
  { query_TableName : name;
    query_KeyConditionExpression : string;
    query_ExpressionAttributeValues : list (string * tagged);
    query_IndexName : option pyval }.

Inductive call : Type :=
| PutItem (r : put_item_request)
| GetItem (r : get_item_request)
| Query (r : query_request).

(** The boto3 client: each operation answers from the state of the
    backend and moves it.  [get_item] answers [Some item] when the
    response has the key ["Item"]; [query] answers the list under
    ["Items"]; [put_item] answers the raw acknowledgement. *)
Context {backend ack : Type}.

Record client : Type := {
  put_item : put_item_request -> backend -> result ack * backend;
  get_item : get_item_request -> backend -> result (option wire_item) * backend;
  client_query : query_request -> backend -> result (list wire_item) * backend
}.

(** The world a method runs in: the backend and the log of the calls
    made to the client, oldest first. *)
Record world : Type := { store : backend; calls : list call }.

Definition invoke {R} (c : call) (op : backend -> result R * backend)
    (w : world) : result R * world :=
  let (r, b) := op (store w) in
  (r, {| store := b; calls := calls w ++ [c] |}).

(** *** The decorated class *)

(** [dataclasses.Field]: the annotation and the default value, if any. *)
Record field : Type := { type : pykey; default : option pyval }.

Record params : Type := {
  table_name : name;
  partition_key_name : name;
  sort_key_name : name
}.

(** The class [dataclass(cls)] returns, with the two attributes that
    [_process_class] sets on it.  [cls_repr] is [str(cls)]. *)
Record dataclass : Type := {
  cls_repr : string;
  dataclass_fields : list (string * field);
  dynamoclass_params : params;
  dynamoclass_client : client
}.

(** An instance, as [asdict(self).items()] lists it. *)
Definition instance : Type := list (string * pyval).

(** [name in cls.__dataclass_fields__] and [cls.__dataclass_fields__[name]] *)
Definition fields_get (fields : list (string * field)) (n : name) : option field :=
  match n with
  | Some s => dict_get String.eqb fields s
  | None => None
  end.

Definition fields_mem (fields : list (string * field)) (n : name) : bool :=
  match fields_get fields n with Some _ => true | None => false end.

(** Instantiation of the class from keyword arguments, [cls] applied
    to [kwargs] unpacked: every keyword names a field, and every field takes
    its keyword or else its default. *)
Definition construct (fields : list (string * field))
    (kwargs : list (string * pyval)) : result instance :=
  if forallb (fun kv => fields_mem fields (Some (fst kv))) kwargs then
    mapM (fun nf : string * field =>
            match dict_get String.eqb kwargs (fst nf) with
            | Some v => Ok (fst nf, v)
            | None => v <- of_option (default (snd nf)) TypeError ;; Ok (fst nf, v)
            end) fields
  else Raise TypeError.

(** [n] is one of the declared field names. *)
Definition declared (fields : list (string * field)) (n : name) : Prop :=
  exists s, n = Some s /\ In s (map fst fields).

(** *** [_process_class] *)

(** The class before decoration, as [dataclass] returns it. *)
Record declaration : Type := {
  decl_repr : string;
  decl_fields : list (string * field)
}.

Definition _process_class (boto3_client : list (string * string) -> result client)
    (cls : declaration) (table_name partition_key_name sort_key_name endpoint_url : name)
    : result dataclass :=
  if negb (fields_mem (decl_fields cls) partition_key_name) then
    Raise (Exception ("Partition Key Name " ++ String dquote (name_str partition_key_name)
                        ++ String dquote " not found in class fields"))
  else if match sort_key_name with
          | Some _ => negb (fields_mem (decl_fields cls) sort_key_name)
          | None => false
          end then
    Raise (Exception ("Sort Key Name " ++ String dquote (name_str sort_key_name)
                        ++ String dquote " not found in class fields"))
  else
    let client_kwargs :=
      match endpoint_url with
      | Some url => [("endpoint_url", url)]
      | None => []
      end in
    c <- boto3_client client_kwargs ;;
    Ok {| cls_repr := decl_repr cls;
          dataclass_fields := decl_fields cls;
          dynamoclass_params :=
            {| table_name := table_name;
               partition_key_name := partition_key_name;
               sort_key_name := sort_key_name |};
          dynamoclass_client := c |}.

(** *** Methods set on the class *)

(** [_to_dynamo(self)]: the comprehension looks [type(v)] up in
    [TYPE_MAPPING] for every item of [asdict(self)], in order, and calls
    the function found on the value. *)
Definition _to_dynamo (self : instance) : result wire_item :=
  mapM (fun kv : string * pyval =>
          let (k, v) := kv in
          m <- type_mapping (KType (type_of v)) ;;
          e <- fn m v ;;
          Ok (k, [(key m, e)]))
       self.

(** The value of one entry of that comprehension, [{key: fn(v)}]. *)
Definition to_dynamo_value (v : pyval) : result tagged :=
  m <- type_mapping (KType (type_of v)) ;;
  e <- fn m v ;;
  Ok [(key m, e)].

(** The message of the [ValueError] of lines 68 and 84. *)
Definition no_such_field (field_name : name) (cls : dataclass) : string :=
  "Cannot render field with name " ++ name_str field_name
    ++ "! No such field name found for " ++ cls_repr cls ++ "!".

(** [list(value.values())[0]] *)
Definition first_value (value : tagged) : result pyval :=
  match value with
  | (_, v) :: _ => Ok v
  | [] => Raise IndexError
  end.

(** The loop of [_to_dataclass] over [dynamodb_item.items()], with the
    dictionary [kwargs] built so far. *)
Fixpoint _to_dataclass_loop (cls : dataclass) (items : wire_item)
    (kwargs : list (string * pyval)) : result (list (string * pyval)) :=
  match items with
  | [] => Ok kwargs
  | (field_name, value) :: rest =>
      match fields_get (dataclass_fields cls) (Some field_name) with
      | None => Raise (ValueError (no_such_field (Some field_name) cls))
      | Some f =>
          field_value <- first_value value ;;
          field_value <- (if pykey_eqb (type f) (KType Tdict)
                          then py_json_loads field_value
                          else Ok field_value) ;;
          v <- py_call (type f) field_value ;;
          _to_dataclass_loop cls rest (dict_set String.eqb kwargs field_name v)
      end
  end.

Definition _to_dataclass (cls : dataclass) (dynamodb_item : wire_item)
    : result (list (string * pyval)) :=
  _to_dataclass_loop cls dynamodb_item [].

Definition _dataclass_field_to_dynamo_field (cls : dataclass)
    (field_name : name) (value : pyval) : result tagged :=
  match fields_get (dataclass_fields cls) field_name with
  | None => Raise (ValueError (no_such_field field_name cls))
  | Some f =>
      let field_type := type f in
      mapping <- type_mapping field_type ;;
      let dynamo_type := key mapping in
      coerced <- py_call field_type value ;;
      dynamo_value <- fn mapping coerced ;;
      Ok [(dynamo_type, dynamo_value)]
  end.

(** Lines 102 to 111 of [get]: the [Key] dictionary. *)
Definition get_key (cls : dataclass) (partition_key sort_key : pyval)
    : result key_item :=
  let partition_key_name := partition_key_name (dynamoclass_params cls) in
  let sort_key_name := sort_key_name (dynamoclass_params cls) in
  pk <- _dataclass_field_to_dynamo_field cls partition_key_name partition_key ;;
  let key := [(partition_key_name, pk)] in
  match sort_key_name with
  | Some _ =>
      sk <- _dataclass_field_to_dynamo_field cls sort_key_name sort_key ;;
      Ok (dict_set name_eqb key sort_key_name sk)
  | None => Ok key
  end.

(** The message of line 118, an f-string over the partition key as it
    was passed. *)
Definition item_not_found (cls : dataclass) (partition_key : pyval) : result string :=
  s <- py_str partition_key ;;
  Ok ("Item not found for " ++ name_str (partition_key_name (dynamoclass_params cls))
        ++ "=" ++ s
        ++ " in " ++ name_str (table_name (dynamoclass_params cls))).

(** The instance a wire item renders to: [cls] instantiated from
    [_to_dataclass(item)]. *)
Definition render (cls : dataclass) (item : wire_item) : result instance :=
  kwargs <- _to_dataclass cls item ;;
  construct (dataclass_fields cls) kwargs.

Definition get (cls : dataclass) (partition_key sort_key : pyval)
    (w : world) : result instance * world :=
  let table_name := table_name (dynamoclass_params cls) in
  match get_key cls partition_key sort_key with
  | Raise e => (Raise e, w)
  | Ok key =>
      let r := {| get_TableName := table_name; get_Key := key |} in
      let (item, w') := invoke (GetItem r) (get_item (dynamoclass_client cls) r) w in
      match item with
      | Raise e => (Raise e, w')
      | Ok None =>
          (msg <- item_not_found cls partition_key ;; Raise (ItemNotFoundError msg), w')
      | Ok (Some i) => (render cls i, w')
      end
  end.

(** [index] takes [VNone] when the keyword is left out. *)
Definition query (cls : dataclass) (partition_key index : pyval)
    (w : world) : result (list instance) * world :=
  let partition_key_name := partition_key_name (dynamoclass_params cls) in
  let table_name := table_name (dynamoclass_params cls) in
  let extra_kwargs := if py_bool index then Some index else None in
  match
    f <- of_option (fields_get (dataclass_fields cls) partition_key_name)
           (KeyError (key_of_name partition_key_name)) ;;
    m <- type_mapping (type f) ;;
    Ok (key m)
  with
  | Raise e => (Raise e, w)
  | Ok partition_key_type =>
      match py_str partition_key with
      | Raise e => (Raise e, w)
      | Ok val =>
          let r := {| query_TableName := table_name;
                      query_KeyConditionExpression :=
                        name_str partition_key_name ++ " = :val";
                      query_ExpressionAttributeValues :=
                        [(":val", [(partition_key_type, VStr val)])];
                      query_IndexName := extra_kwargs |} in
          let (items, w') :=
            invoke (Query r) (client_query (dynamoclass_client cls) r) w in
          match items with
          | Raise e => (Raise e, w')
          | Ok l => (mapM (render cls) l, w')
          end
      end
  end.

Definition save (cls : dataclass) (self : instance) (w : world)
    : result ack * world :=
  match _to_dynamo self with
  | Raise e => (Raise e, w)
  | Ok item =>
      let r := {| put_TableName := table_name (dynamoclass_params cls);
                  put_Item := item |} in
      invoke (PutItem r) (put_item (dynamoclass_client cls) r) w
  end.

(** Two wire items with the same field names and the same values in
    the same order, under any tag keys. *)
Definition same_values (w1 w2 : wire_item) : Prop :=
  Forall2 (fun e1 e2 : string * tagged =>
             fst e1 = fst e2 /\ map snd (snd e1) = map snd (snd e2)) w1 w2.

(** The class with another sort key name in its parameters. *)
Definition with_sort_key (cls : dataclass) (sk : name) : dataclass :=
  {| cls_repr := cls_repr cls;
     dataclass_fields := dataclass_fields cls;
     dynamoclass_params :=
       {| table_name := table_name (dynamoclass_params cls);
          partition_key_name := partition_key_name (dynamoclass_params cls);
          sort_key_name := sk |};
     dynamoclass_client := dynamoclass_client cls |}.


(** An integer held by the value is within the limit of digits, so
    that [str] returns on it. *)
Definition within_limit (v : pyval) : bool :=
  match v with
  | VInt z => int_fits z
  | _ => true
  end.



(** *** Calls by keyword *)

(** [get] and [query] take keyword-only parameters.  A call binds the
    keywords it is given to the signature: a keyword the signature does
    not have, or a parameter without default that is left out, is a
    [TypeError] raised before the body runs. *)
Definition keywords_within (allowed : list string) (kw : list (string * pyval)) : bool :=
  forallb (fun kv => existsb (String.eqb (fst kv)) allowed) kw.

(** A call of [cls.get] with the keywords [kw], against [def get(cls, *, partition_key, sort_key)] *)
Definition call_get (cls : dataclass) (kw : list (string * pyval))
    (w : world) : result instance * world :=
  if keywords_within ["partition_key"; "sort_key"] kw then
    match dict_get String.eqb kw "partition_key", dict_get String.eqb kw "sort_key" with
    | Some partition_key, Some sort_key => get cls partition_key sort_key w
    | _, _ => (Raise TypeError, w)
    end
  else (Raise TypeError, w).

(** A call of [cls.query] with the keywords [kw], against [def query(cls, *, partition_key, index=None)] *)
Definition call_query (cls : dataclass) (kw : list (string * pyval))
    (w : world) : result (list instance) * world :=
  if keywords_within ["partition_key"; "index"] kw then
    match dict_get String.eqb kw "partition_key" with
    | Some partition_key =>
        let index := match dict_get String.eqb kw "index" with
                     | Some i => i
                     | None => VNone
                     end in
        query cls partition_key index w
    | None => (Raise TypeError, w)
    end
  else (Raise TypeError, w).

(** *** [dynamoclass] *)

(** What [dynamoclass] returns: the function [wrap] when it is called
    with keywords only, and the outcome of [wrap] on the class when it is
    applied to one. *)
Inductive decorated : Type :=
| Wrap (wrap : declaration -> result dataclass)
| Wrapped (r : result dataclass).

(** A keyword left out is [None].  [region] is passed on to
    [_process_class], which makes no use of it. *)
Definition dynamoclass (boto3_client : list (string * string) -> result client)
    (_cls : option declaration)
    (table_name partition_key_name sort_key_name region endpoint_url : name)
    : decorated :=
  let wrap := fun cls =>
    _process_class boto3_client cls table_name partition_key_name sort_key_name
      endpoint_url in
  match _cls with
  | None => Wrap wrap
  | Some cls => Wrapped (wrap cls)
  end.

(** The tag keys of [TYPE_MAPPING] that are reached through a type
    object. *)
Definition written_tags : list string := ["S"; "N"; "B"; "M"; "BOOL"].

End Dynamoclasses.

Arguments client {F} backend ack.
Arguments world {F} backend.
Arguments dataclass {F} backend ack.

(** ** A small model of the library interfaces *)

(** Floats with an integral value, which Python prints with a trailing
    [.0] (below 1e16) and reads back from either spelling. *)
Definition drop_point_zero (s : string) : string :=
  let n := String.length s in
  if String.eqb (substring (n - 2) 2 s) ".0" then substring 0 (n - 2) s else s.

Definition integral_floats : PyFloat := {|
  pyfloat := Z;
  float_str := fun x => decimal x ++ ".0";
  float_of_literal := fun s =>
    int_of_literal (drop_point_zero (strip (ascii_spaces s)));
  float_of_int := fun z => Some z;
  int_of_float := fun x => Ok x;
  float_bool := fun x => negb (x =? 0)
|}.

(** A JSON integer: an optional minus sign and digits, without a
    leading zero before another digit. *)
Definition json_integer (s : string) : bool :=
  let r := match s with String "-" r => r | r => r end in
  match r with
  | EmptyString => false
  | String "0" EmptyString => true
  | String "0" _ => false
  | _ => all_digits r
  end.

(** An opening and a closing bracket with white space between them. *)
Definition empty_brackets (opening closing : ascii) (s : string) : bool :=
  match s with
  | String c r => Ascii.eqb c opening && String.eqb (lstrip r) (String closing EmptyString)
  | EmptyString => false
  end.

(** JSON restricted to the empty object, the empty array, [null],
    [true], [false] and integers, between blanks, tabs and line ends;
    containers print as Python prints the empty ones. *)
Definition small_lib : @PyLib integral_floats := {|
  json_loads := fun s =>
    let t := strip s in
    if string_mem (ascii_of_nat 11) s || string_mem (ascii_of_nat 12) s
    then Raise JSONDecodeError
    else if empty_brackets "{" "}" t then Ok (VDict [])
    else if empty_brackets "[" "]" t then Ok (VList [])
    else if String.eqb t "null" then Ok VNone
    else if String.eqb t "true" then Ok (VBool true)
    else if String.eqb t "false" then Ok (VBool false)
    else if json_integer t then z <- int_of_text (str_repr t) t ;; Ok (VInt z)
    else Raise JSONDecodeError;
  container_repr := fun v =>
    match v with
    | VDict [] => Ok "{}"
    | VList [] => Ok "[]"
    | VDict _ => Ok "{...}"
    | _ => Ok "[...]"
    end;
  dict_of_items := fun l =>
    match l with
    | [] => Ok []
    | _ => Raise TypeError
    end
|}.

#[local] Existing Instance integral_floats.
#[local] Existing Instance small_lib.

(** ** Example classes *)

(** A client without a store: [get_item] answers [item] and [query]
    answers [items], whatever the request. *)
Definition canned_client (item : option wire_item) (items : list wire_item)
    : client unit unit := {|
  put_item := fun _ b => (Ok tt, b);
  get_item := fun _ b => (Ok item, b);
  client_query := fun _ b => (Ok items, b)
|}.

Definition start : world unit := {| store := tt; calls := [] |}.

Definition plain (t : pytype) : field := {| type := KType t; default := None |}.

(** [User] with [id: str] as partition key and [name: str]. *)
Definition user_decl : declaration :=
  {| decl_repr := "<class 'User'>";
     decl_fields := [("id", plain Tstr); ("name", plain Tstr)] |}.

Definition User (c : client unit unit) : dataclass unit unit :=
  {| cls_repr := decl_repr user_decl;
     dataclass_fields := decl_fields user_decl;
     dynamoclass_params :=
       {| table_name := Some "users"; partition_key_name := Some "id";
          sort_key_name := None |};
     dynamoclass_client := c |}.

(** [Order] with [customer: str] as partition key, [ts: int] as sort
    key and [amount: int]. *)
Definition Order (c : client unit unit) : dataclass unit unit :=
  {| cls_repr := "<class 'Order'>";
     dataclass_fields :=
       [("customer", plain Tstr); ("ts", plain Tint); ("amount", plain Tint)];
     dynamoclass_params :=
       {| table_name := Some "orders"; partition_key_name := Some "customer";
          sort_key_name := Some "ts" |};
     dynamoclass_client := c |}.


(** [Twin], registered with the same field as partition key and as sort
    key. *)
Definition Twin (c : client unit unit) : dataclass unit unit :=
  {| cls_repr := "<class 'Twin'>";
     dataclass_fields := [("id", plain Tstr)];
     dynamoclass_params :=
       {| table_name := Some "twins"; partition_key_name := Some "id";
          sort_key_name := Some "id" |};
     dynamoclass_client := c |}.



(** [Blob] with [id: str] as partition key, [payload: bytes] and
    [meta: dict]; [note] has a default. *)
Definition Blob (c : client unit unit) : dataclass unit unit :=
  {| cls_repr := "<class 'Blob'>";
     dataclass_fields :=
       [("id", plain Tstr); ("payload", plain Tbytes); ("meta", plain Tdict);
        ("note", {| type := KType Tstr; default := Some (VStr "none") |})];
     dynamoclass_params :=
       {| table_name := Some "blobs"; partition_key_name := Some "id";
          sort_key_name := None |};
     dynamoclass_client := c |}.

(** [Event] with [seq: int] as partition key. *)
Definition Event (c : client unit unit) : dataclass unit unit :=
  {| cls_repr := "<class 'Event'>";
     dataclass_fields := [("seq", plain Tint); ("what", plain Tstr)];
     dynamoclass_params :=
       {| table_name := Some "events"; partition_key_name := Some "seq";
          sort_key_name := None |};
     dynamoclass_client := c |}.


(** [Flagged] with a field annotated [None]. *)
Definition Flagged (c : client unit unit) : dataclass unit unit :=
  {| cls_repr := "<class 'Flagged'>";
     dataclass_fields :=
       [("id", plain Tstr); ("gone", {| type := KNone; default := None |})];
     dynamoclass_params :=
       {| table_name := Some "flagged"; partition_key_name := Some "id";
          sort_key_name := None |};
     dynamoclass_client := c |}.

(** * Properties *)

(** ** Integer literals *)










Lemma string_of_uint_nonnil d :
  d <> Decimal.Nil -> NilZero.string_of_uint d = NilEmpty.string_of_uint d.
Proof. destruct d; simpl; congruence. Qed.



Lemma string_of_int_pos p :
  NilZero.string_of_int (Decimal.Pos (Pos.to_uint p))
  = NilEmpty.string_of_uint (Pos.to_uint p).
Proof. simpl. apply string_of_uint_nonnil, Unsigned.to_uint_nonnil. Qed.








(** *** The limit of digits as a bound on the integer *)

Lemma count_digits_uint d :
  count_digits (NilEmpty.string_of_uint d) = Z.of_nat (Decimal.nb_digits d).
Proof. induction d; cbn [Decimal.nb_digits NilEmpty.string_of_uint count_digits]. reflexivity. all: change (is_digit _) with true; cbv iota; lia. Qed.

Lemma usize_nb_digits d : Unsigned.usize d = N.of_nat (Decimal.nb_digits d).
Proof. induction d; simpl Decimal.nb_digits; simpl Unsigned.usize; lia. Qed.

Lemma of_lu_bound d : (Unsigned.of_lu d < 10 ^ Unsigned.usize d)%N.
Proof.
  induction d; cbn [Unsigned.of_lu Unsigned.usize];
    [reflexivity | rewrite N.pow_succ_r'; lia ..].
Qed.

Lemma pos_below_digits p :
  Z.pos p < 10 ^ Z.of_nat (Decimal.nb_digits (Pos.to_uint p)).
Proof.
  pose proof (Unsigned.of_to p) as E. rewrite Unsigned.of_uint_alt in E.
  pose proof (of_lu_bound (Decimal.rev (Pos.to_uint p))) as H.
  rewrite E, usize_nb_digits, DecimalFacts.nb_digits_rev in H.
  apply N2Z.inj_lt in H. rewrite N2Z.inj_pow, nat_N_Z in H. exact H.
Qed.

(** An integer of absolute value [10 ^ int_max_str_digits] or more has
    too many digits. *)
Lemma int_fits_bound z :
  10 ^ int_max_str_digits <= Z.abs z -> int_fits z = false.
Proof.
  intros H. unfold int_fits. apply Z.leb_gt.
  assert (G : forall p, 10 ^ int_max_str_digits <= Z.pos p ->
                        int_max_str_digits
                        < count_digits (NilEmpty.string_of_uint (Pos.to_uint p))).
  { intros p Hp. rewrite count_digits_uint.
    pose proof (pos_below_digits p) as Hb.
    apply (Z.pow_lt_mono_r_iff 10); lia. }
  unfold decimal. destruct z as [|p|p].
  - exfalso. simpl in H. assert (0 < 10 ^ int_max_str_digits) by (apply Z.pow_pos_nonneg; unfold int_max_str_digits; lia). lia.
  - simpl Z.to_int. rewrite string_of_int_pos. now apply G.
  - simpl Z.to_int. simpl NilZero.string_of_int.
    rewrite string_of_uint_nonnil by apply Unsigned.to_uint_nonnil.
    simpl count_digits. apply (G p H).
Qed.

Lemma pos_above_digits p :
  10 ^ (Z.of_nat (Decimal.nb_digits (Pos.to_uint p)) - 1) <= Z.pos p.
Proof.
  pose proof (Unsigned.of_to p) as E.
  pose proof (Unsigned.to_of (Pos.to_uint p)) as U. rewrite E in U. simpl N.to_uint in U.
  pose proof (Unsigned.to_uint_nonzero p) as Hz.
  pose proof (Unsigned.to_uint_nonnil p) as Hn.
  destruct (Pos.to_uint p) as [|d|d|d|d|d|d|d|d|d|d] eqn:Hd; [congruence| |..].
  { exfalso. destruct (Decimal.uint_eq_dec d Decimal.Nil) as [->|Hne]; [now apply Hz|].
    pose proof (DecimalFacts.nb_digits_unorm d Hne) as Hl.
    change (Decimal.unorm (Decimal.D0 d)) with (Decimal.unorm d) in U.
    rewrite <- U in Hl. simpl in Hl. lia. }
  all: simpl Pos.of_uint in E; rewrite Unsigned.of_uint_acc_rev, usize_nb_digits in E;
    cbn [Decimal.nb_digits];
    replace (Z.of_nat (S (Decimal.nb_digits d)) - 1) with (Z.of_nat (Decimal.nb_digits d)) by lia;
    rewrite <- nat_N_Z, <- (N2Z.inj_pow 10), <- (N2Z.inj_pos p), <- E;
    apply N2Z.inj_le;
    assert (0 < 10 ^ N.of_nat (Decimal.nb_digits d))%N by (apply N.neq_0_lt_0, N.pow_nonzero; discriminate);
    nia.
Qed.

(** The integers within the limit are those of absolute value below
    [10 ^ int_max_str_digits]. *)
Lemma int_fits_iff z :
  int_fits z = true <-> Z.abs z < 10 ^ int_max_str_digits.
Proof.
  split.
  - intros H. destruct (Z.lt_ge_cases (Z.abs z) (10 ^ int_max_str_digits)) as [|Hge];
      [assumption|]. apply int_fits_bound in Hge. congruence.
  - intros H. unfold int_fits. apply Z.leb_le.
    assert (G : forall p, Z.pos p < 10 ^ int_max_str_digits ->
                          count_digits (NilEmpty.string_of_uint (Pos.to_uint p))
                          <= int_max_str_digits).
    { intros p Hp. rewrite count_digits_uint.
      pose proof (pos_above_digits p) as Hb.
      assert (Hlt : 10 ^ (Z.of_nat (Decimal.nb_digits (Pos.to_uint p)) - 1)
                    < 10 ^ int_max_str_digits) by lia.
      apply Z.pow_lt_mono_r_iff in Hlt; unfold int_max_str_digits in *; lia. }
    unfold decimal. destruct z as [|p|p].
    + vm_compute. discriminate.
    + simpl Z.to_int. rewrite string_of_int_pos. now apply G.
    + simpl Z.to_int. simpl NilZero.string_of_int.
      rewrite string_of_uint_nonnil by apply Unsigned.to_uint_nonnil.
      simpl count_digits. apply (G p H).
Qed.

(** ** The error monad *)

Lemma bind_ok {A B} (m : result A) (k : A -> result B) (b : B) :
  bind m k = Ok b -> exists a, m = Ok a /\ k a = Ok b.
Proof. destruct m as [a|e]; simpl; [eauto | discriminate]. Qed.

Lemma mapM_app {A B} (f : A -> result B) (l1 l2 : list A) :
  mapM f (l1 ++ l2)%list = (ys1 <- mapM f l1 ;; ys2 <- mapM f l2 ;; Ok (ys1 ++ ys2)%list).
Proof.
  induction l1 as [|x l1 IH]; simpl.
  - destruct (mapM f l2); reflexivity.
  - destruct (f x) as [y|e]; simpl; [|reflexivity].
    rewrite IH. destruct (mapM f l1); simpl; [|reflexivity].
    destruct (mapM f l2); reflexivity.
Qed.

Lemma mapM_ok_map {A B} (f : A -> result B) (g : A -> B) (l : list A) :
  (forall x, In x l -> f x = Ok (g x)) -> mapM f l = Ok (map g l).
Proof.
  induction l as [|x l IH]; simpl; intros H; [reflexivity|].
  rewrite (H x) by auto. simpl. rewrite IH by auto. reflexivity.
Qed.

(** ** Dictionaries keyed by strings *)

Lemma dict_get_in {V} (d : list (string * V)) (k : string) :
  dict_get String.eqb d k <> None <-> In k (map fst d).
Proof.
  induction d as [|[k' v] d IH]; simpl; [tauto|].
  destruct (String.eqb_spec k' k) as [->|Hne].
  - split; [auto | discriminate].
  - rewrite IH. split; [auto | intros [?|?]; congruence].
Qed.

Section Properties.
Context {F : PyFloat} {L : PyLib} {backend ack : Type}.

Lemma fields_mem_declared (fields : list (string * field)) (n : name) :
  fields_mem fields n = true <-> declared fields n.
Proof.
  unfold fields_mem, fields_get, declared. destruct n as [s|].
  - pose proof (dict_get_in fields s) as H.
    destruct (dict_get String.eqb fields s) eqn:E; split.
    + intros _. exists s. split; [reflexivity|]. apply H. discriminate.
    + reflexivity.
    + discriminate.
    + intros (s' & [= <-] & Hin). apply H in Hin. congruence.
  - split; [discriminate | intros (s & [=] & _)].
Qed.

Lemma fields_mem_undeclared (fields : list (string * field)) (n : name) :
  fields_mem fields n = false <-> ~ declared fields n.
Proof.
  rewrite <- fields_mem_declared. destruct (fields_mem fields n); split; congruence.
Qed.

Lemma fields_get_undeclared (fields : list (string * field)) (n : name) :
  ~ declared fields n -> fields_get fields n = None.
Proof.
  intros H. apply fields_mem_undeclared in H. unfold fields_mem in H.
  destruct (fields_get fields n); [discriminate | reflexivity].
Qed.

(** ** Registration *)

(** C3.  [_process_class] raises the [Exception] of line 28 when the
    partition key name is not a declared field, and an [Exception] (that
    of line 28 or of line 33) when the sort key name is given and is not
    a declared field.  When it returns a class, the parameters stored on
    it are exactly the table name, partition key name and sort key name
    it was given, and both keys are declared; and it does return one
    whenever the keys are declared and the client can be built. *)
Theorem process_class_key_fields
    (boto3_client : list (string * string) -> result (client backend ack))
    (cls : declaration) (tn pk sk url : name) :
  (~ declared (decl_fields cls) pk ->
     _process_class boto3_client cls tn pk sk url
     = Raise (Exception ("Partition Key Name " ++ String dquote (name_str pk)
                           ++ String dquote " not found in class fields")))
  /\ (sk <> None -> ~ declared (decl_fields cls) sk ->
        exists msg, _process_class boto3_client cls tn pk sk url = Raise (Exception msg))
  /\ (forall dc, _process_class boto3_client cls tn pk sk url = Ok dc ->
        dynamoclass_params dc
        = {| table_name := tn; partition_key_name := pk; sort_key_name := sk |}
        /\ declared (decl_fields cls) pk
        /\ (sk = None \/ declared (decl_fields cls) sk))
  /\ (declared (decl_fields cls) pk ->
      sk = None \/ declared (decl_fields cls) sk ->
      forall c,
        boto3_client (match url with Some u => [("endpoint_url", u)] | None => [] end) = Ok c ->
        is_ok (_process_class boto3_client cls tn pk sk url) = true).
Proof.
  unfold _process_class.
  destruct (fields_mem (decl_fields cls) pk) eqn:Hpk; simpl.
  - apply fields_mem_declared in Hpk.
    assert (Hret : forall (c : client backend ack) dc,
      (c0 <- boto3_client (match url with Some u => [("endpoint_url", u)] | None => [] end) ;;
       Ok {| cls_repr := decl_repr cls; dataclass_fields := decl_fields cls;
             dynamoclass_params :=
               {| table_name := tn; partition_key_name := pk; sort_key_name := sk |};
             dynamoclass_client := c0 |}) = Ok dc ->
      dynamoclass_params dc
      = {| table_name := tn; partition_key_name := pk; sort_key_name := sk |}).
    { intros _ dc H. apply bind_ok in H as (c & _ & [= <-]). reflexivity. }
    destruct sk as [s|]; simpl.
    + destruct (fields_mem (decl_fields cls) (Some s)) eqn:Hsk; simpl.
      * apply fields_mem_declared in Hsk.
        split; [tauto|]. split; [tauto|]. split.
        -- intros dc H. pose proof H as H'. apply bind_ok in H' as (c & _ & _). eauto.
        -- intros _ _ c ->. reflexivity.
      * apply fields_mem_undeclared in Hsk.
        split; [tauto|]. split; [eauto|]. split; [discriminate|].
        intros _ [Hn|Hd]; [discriminate | tauto].
    + split; [tauto|]. split; [congruence|]. split.
      * intros dc H. pose proof H as H'. apply bind_ok in H' as (c & _ & _). eauto.
      * intros _ _ c ->. reflexivity.
  - apply fields_mem_undeclared in Hpk.
    split; [reflexivity|]. split; [eauto|]. split; [discriminate | tauto].
Qed.

(** ** Encoding *)

Lemma registered_types (t : pytype) :
  registered t = false <-> t = TNoneType \/ t = Tlist.
Proof.
  destruct t; vm_compute; split; intros H; try discriminate; auto;
    destruct H; discriminate.
Qed.

Lemma type_mapping_unregistered (t : pytype) :
  registered t = false -> type_mapping (KType t) = Raise (KeyError (KType t)).
Proof.
  unfold registered, type_mapping.
  destruct (dict_get pykey_eqb TYPE_MAPPING (KType t)); [discriminate | reflexivity].
Qed.

Lemma to_dynamo_cons (k : string) (v : pyval) (self : instance) :
  _to_dynamo ((k, v) :: self)
  = (t <- to_dynamo_value v ;; w <- _to_dynamo self ;; Ok ((k, t) :: w)).
Proof.
  unfold _to_dynamo, to_dynamo_value. simpl.
  destruct (type_mapping (KType (type_of v))) as [m|e]; simpl; [|reflexivity].
  destruct (fn m v); reflexivity.
Qed.

Lemma to_dynamo_app (a b : instance) :
  _to_dynamo (a ++ b)%list
  = (wa <- _to_dynamo a ;; wb <- _to_dynamo b ;; Ok (wa ++ wb)%list).
Proof. apply mapM_app. Qed.

(** On a value of a registered type, within the limit of digits when it
    is an integer, the entry [_to_dynamo] builds is the one the
    specification gives. *)
Lemma to_dynamo_entry (v : pyval) :
  registered (type_of v) = true ->
  within_limit v = true ->
  exists t, spec_encode v = Some t /\ to_dynamo_value v = Ok t.
Proof.
  unfold to_dynamo_value.
  destruct v as [s|z|x|b|d|[]| |l]; simpl; intros H Hl;
    try (vm_compute in H; discriminate); eexists; (split; [reflexivity|]);
    try reflexivity.
  unfold int_str. rewrite Hl. reflexivity.
Qed.

(** The two ways an entry fails: the type of the value does not key the
    registry, or the value is an integer that [str] refuses. *)
Lemma to_dynamo_value_raise (v : pyval) (e : pyexc) :
  to_dynamo_value v = Raise e ->
  (registered (type_of v) = false /\ e = KeyError (KType (type_of v)))
  \/ (registered (type_of v) = true /\ within_limit v = false /\ e = too_many_digits).
Proof.
  unfold to_dynamo_value.
  destruct v as [s|z|x|b|d|[]| |l]; simpl; try discriminate;
    try (intros [= <-]; left; split; reflexivity).
  unfold int_str. destruct (int_fits z); simpl; [discriminate|].
  intros [= <-]. right. repeat split.
Qed.

Lemma to_dynamo_value_unregistered (v : pyval) :
  registered (type_of v) = false ->
  to_dynamo_value v = Raise (KeyError (KType (type_of v))).
Proof.
  intros H. unfold to_dynamo_value. now rewrite type_mapping_unregistered.
Qed.

Lemma to_dynamo_value_ok (v : pyval) (t : tagged) :
  to_dynamo_value v = Ok t ->
  registered (type_of v) = true /\ within_limit v = true /\ spec_encode v = Some t.
Proof.
  intros H.
  destruct (registered (type_of v)) eqn:Hr.
  - destruct (within_limit v) eqn:Hl.
    + destruct (to_dynamo_entry v Hr Hl) as (t' & Hs & Ht). split; [reflexivity|].
      split; [reflexivity|]. congruence.
    + exfalso. destruct v; try discriminate. unfold to_dynamo_value in H. simpl in *.
      unfold int_str in H. rewrite Hl in H. discriminate.
  - rewrite to_dynamo_value_unregistered in H by assumption. discriminate.
Qed.

Lemma to_dynamo_registered (self : instance) :
  Forall (fun kv => registered (type_of (snd kv)) = true) self ->
  Forall (fun kv => within_limit (snd kv) = true) self ->
  exists w,
    _to_dynamo self = Ok w
    /\ Forall2 (fun kv e => fst e = fst kv /\ spec_encode (snd kv) = Some (snd e)) self w.
Proof.
  induction self as [|[k v] self IH]; intros Hr Hl.
  - exists []. split; [reflexivity | constructor].
  - inversion Hr as [|? ? Hv Hr']; inversion Hl as [|? ? Hlv Hl']; subst.
    destruct (IH Hr' Hl') as (w & Hw & Hall).
    destruct (to_dynamo_entry v Hv Hlv) as (t & Hs & Ht).
    rewrite to_dynamo_cons, Ht, Hw. simpl.
    eexists. split; [reflexivity|]. constructor; auto.
Qed.

(** What [_to_dynamo] returns is, entry by entry, what the
    specification gives. *)
Lemma to_dynamo_ok (self : instance) (w : wire_item) :
  _to_dynamo self = Ok w ->
  Forall2 (fun kv e => fst e = fst kv /\ spec_encode (snd kv) = Some (snd e)
                       /\ registered (type_of (snd kv)) = true
                       /\ within_limit (snd kv) = true) self w.
Proof.
  revert w. induction self as [|[k v] self IH]; intros w H.
  - injection H as <-. constructor.
  - rewrite to_dynamo_cons in H.
    apply bind_ok in H as (t & Ht & H). apply bind_ok in H as (w' & Hw' & [= <-]).
    apply to_dynamo_value_ok in Ht as (Hr & Hl & Hs).
    constructor; [simpl; auto | auto].
Qed.

(** An instance with a field of a type that does not key the registry
    does not encode: the exception is the [KeyError] of a type that does
    not key it, or the [ValueError] of an integer before it that [str]
    refuses. *)
Lemma to_dynamo_fails (self : instance) :
  (exists kv, In kv self /\ registered (type_of (snd kv)) = false) ->
  exists e,
    _to_dynamo self = Raise e
    /\ ((exists t, registered t = false /\ e = KeyError (KType t))
        \/ e = too_many_digits).
Proof.
  induction self as [|[k v] self IH]; intros (kv & Hin & Hkv); [destruct Hin|].
  rewrite to_dynamo_cons.
  destruct (to_dynamo_value v) as [t|e] eqn:Hv; simpl.
  - apply to_dynamo_value_ok in Hv as (Hr & _ & _).
    destruct Hin as [<-|Hin]; [simpl in Hkv; congruence|].
    destruct IH as (e & -> & He); [eauto|]. exists e. split; [reflexivity | exact He].
  - exists e. split; [reflexivity|].
    apply to_dynamo_value_raise in Hv as [(Hr & ->)|(_ & _ & ->)]; [left; eauto | now right].
Qed.

(** With every integer within the limit, it is the [KeyError]. *)
Lemma to_dynamo_first_unregistered (self : instance) :
  Forall (fun kv => within_limit (snd kv) = true) self ->
  (exists kv, In kv self /\ registered (type_of (snd kv)) = false) ->
  exists t, registered t = false /\ _to_dynamo self = Raise (KeyError (KType t)).
Proof.
  induction self as [|[k v] self IH]; intros Hl (kv & Hin & Hkv); [destruct Hin|].
  inversion Hl as [|? ? Hlv Hl']; subst. simpl in Hlv.
  rewrite to_dynamo_cons.
  destruct (registered (type_of v)) eqn:Hv.
  - destruct (to_dynamo_entry v Hv Hlv) as (t & _ & ->). simpl.
    destruct Hin as [<-|Hin]; [simpl in Hkv; congruence|].
    destruct (IH Hl') as (t' & Ht' & ->); [eauto|]. exists t'. split; [assumption | reflexivity].
  - exists (type_of v). split; [assumption|].
    now rewrite to_dynamo_value_unregistered.
Qed.

(** The first field of an unregistered type, after fields that encode. *)
Lemma to_dynamo_after_prefix (pre post : instance) (k : string) (v : pyval) (w : wire_item) :
  _to_dynamo pre = Ok w ->
  registered (type_of v) = false ->
  _to_dynamo (pre ++ (k, v) :: post)%list = Raise (KeyError (KType (type_of v))).
Proof.
  intros Hpre Hv.
  rewrite to_dynamo_app, Hpre, to_dynamo_cons, to_dynamo_value_unregistered by assumption.
  reflexivity.
Qed.

(** C2.  [_to_dynamo] on an instance with a field that holds [None]
    raises [KeyError]: [TYPE_MAPPING] is keyed by the object [None] while
    the lookup is by [type(v)], which is [NoneType].  The entry
    [{"NULL": None}] that the registry provides for Null is never
    produced. *)
Theorem to_dynamo_none (k : string) (rest : instance) :
  _to_dynamo ((k, VNone) :: rest) = Raise (KeyError (KType TNoneType))
  /\ spec_encode VNone = Some [("NULL", VNone)]
  /\ option_map key (dict_get pykey_eqb TYPE_MAPPING KNone) = Some "NULL".
Proof. repeat split. Qed.

(** C6.  [_to_dynamo] on an instance with a field whose type does not
    key [TYPE_MAPPING] raises the [KeyError] of the lookup, for the first
    such field: always when the fields before it encode, which they do
    when the integers they hold are within the limit of digits; an
    integer beyond it makes [str] raise first.  So does
    [_dataclass_field_to_dynamo_field] on a declared field whose
    annotation does not key it. *)
Theorem to_dynamo_unsupported (self : instance) (cls : dataclass backend ack) :
  (Forall (fun kv => within_limit (snd kv) = true) self ->
   (exists kv, In kv self /\ registered (type_of (snd kv)) = false) ->
   exists t, registered t = false /\ _to_dynamo self = Raise (KeyError (KType t)))
  /\ (forall pre k v post w,
        self = (pre ++ (k, v) :: post)%list ->
        _to_dynamo pre = Ok w ->
        registered (type_of v) = false ->
        _to_dynamo self = Raise (KeyError (KType (type_of v))))
  /\ ((exists kv, In kv self /\ registered (type_of (snd kv)) = false) ->
      exists e,
        _to_dynamo self = Raise e
        /\ ((exists t, registered t = false /\ e = KeyError (KType t))
            \/ e = too_many_digits))
  /\ (forall n f v,
        fields_get (dataclass_fields cls) n = Some f ->
        dict_get pykey_eqb TYPE_MAPPING (type f) = None ->
        _dataclass_field_to_dynamo_field cls n v = Raise (KeyError (type f))).
Proof.
  split; [|split; [|split]].
  - apply to_dynamo_first_unregistered.
  - intros pre k v post w -> Hpre Hv. now apply to_dynamo_after_prefix with (w := w).
  - apply to_dynamo_fails.
  - intros n f v Hf Hm. unfold _dataclass_field_to_dynamo_field, type_mapping.
    rewrite Hf, Hm. reflexivity.
Qed.

(** ** Decoding *)

Lemma first_value_values (a b : tagged) :
  map snd a = map snd b -> first_value a = first_value b.
Proof.
  destruct a as [|[? ?] ?], b as [|[? ?] ?]; simpl; intros H;
    try discriminate; [reflexivity | now injection H as -> _].
Qed.

Lemma to_dataclass_loop_app (cls : dataclass backend ack) (a b : wire_item)
    (kwargs : list (string * pyval)) :
  _to_dataclass_loop cls (a ++ b)%list kwargs
  = (kw <- _to_dataclass_loop cls a kwargs ;; _to_dataclass_loop cls b kw).
Proof.
  revert kwargs. induction a as [|[k tv] a IH]; intros kwargs; simpl; [reflexivity|].
  destruct (dict_get String.eqb (dataclass_fields cls) k) as [f|]; [|reflexivity].
  destruct (first_value tv) as [v|e]; simpl; [|reflexivity].
  destruct (if pykey_eqb (type f) (KType Tdict) then py_json_loads v else Ok v)
    as [v'|e]; simpl; [|reflexivity].
  destruct (py_call (type f) v') as [v''|e]; simpl; [apply IH | reflexivity].
Qed.

Lemma to_dataclass_loop_undeclared (cls : dataclass backend ack) (item : wire_item) :
  (exists e, In e item /\ ~ declared (dataclass_fields cls) (Some (fst e))) ->
  forall kwargs, is_ok (_to_dataclass_loop cls item kwargs) = false.
Proof.
  induction item as [|[k tv] item IH]; intros (e & Hin & He) kwargs; [destruct Hin|].
  simpl.
  destruct (dict_get String.eqb (dataclass_fields cls) k) as [f|] eqn:Hk; [|reflexivity].
  destruct Hin as [<-|Hin].
  { apply fields_get_undeclared in He. simpl in He. congruence. }
  destruct (first_value tv) as [v|]; simpl; [|reflexivity].
  destruct (if pykey_eqb (type f) (KType Tdict) then py_json_loads v else Ok v)
    as [v'|]; simpl; [|reflexivity].
  destruct (py_call (type f) v') as [v''|]; simpl; [|reflexivity].
  apply IH. eauto.
Qed.

(** C9.  [_to_dataclass] reads the values of the tagged dictionaries and
    never their keys: wire items with the same field names and the same
    values under arbitrary tag keys decode to the same keyword arguments
    (or raise the same exception), and so render to the same instance. *)
Theorem to_dataclass_ignores_tags (cls : dataclass backend ack) (w1 w2 : wire_item) :
  same_values w1 w2 ->
  _to_dataclass cls w1 = _to_dataclass cls w2 /\ render cls w1 = render cls w2.
Proof.
  intros H.
  assert (E : forall kwargs,
             _to_dataclass_loop cls w1 kwargs = _to_dataclass_loop cls w2 kwargs).
  { induction H as [|[k1 t1] [k2 t2] w1 w2 [Hk Ht] _ IH]; intros kwargs; [reflexivity|].
    simpl in Hk, Ht. subst k2. simpl.
    rewrite (first_value_values t1 t2 Ht).
    destruct (dict_get String.eqb (dataclass_fields cls) k1) as [f|]; [|reflexivity].
    destruct (first_value t2) as [v|]; simpl; [|reflexivity].
    destruct (if pykey_eqb (type f) (KType Tdict) then py_json_loads v else Ok v)
      as [v'|]; simpl; [|reflexivity].
    destruct (py_call (type f) v') as [v''|]; simpl; [apply IH | reflexivity]. }
  unfold render, _to_dataclass. rewrite E. split; reflexivity.
Qed.

(** ** Undeclared field names *)

(** C4.  A wire item with an undeclared key never decodes, and the
    exception is the [ValueError] of line 68 for the first such key when
    the entries before it decode.  [_dataclass_field_to_dynamo_field] on
    an undeclared name raises the [ValueError] of line 84, and in [get]
    that happens before the client is called: the world is unchanged. *)
Theorem undeclared_field_errors (cls : dataclass backend ack) :
  (forall pre k tv post kwargs,
      ~ declared (dataclass_fields cls) (Some k) ->
      _to_dataclass cls pre = Ok kwargs ->
      _to_dataclass cls (pre ++ (k, tv) :: post)%list
      = Raise (ValueError (no_such_field (Some k) cls)))
  /\ (forall item,
        (exists e, In e item /\ ~ declared (dataclass_fields cls) (Some (fst e))) ->
        is_ok (_to_dataclass cls item) = false)
  /\ (forall n v,
        ~ declared (dataclass_fields cls) n ->
        _dataclass_field_to_dynamo_field cls n v
        = Raise (ValueError (no_such_field n cls)))
  /\ (forall partition_key sort_key w,
        ~ declared (dataclass_fields cls) (partition_key_name (dynamoclass_params cls)) ->
        get cls partition_key sort_key w
        = (Raise (ValueError (no_such_field (partition_key_name (dynamoclass_params cls)) cls)),
           w)).
Proof.
  assert (Hf : forall n v,
             ~ declared (dataclass_fields cls) n ->
             _dataclass_field_to_dynamo_field cls n v
             = Raise (ValueError (no_such_field n cls))).
  { intros n v H. unfold _dataclass_field_to_dynamo_field.
    now rewrite (fields_get_undeclared _ _ H). }
  split; [|split; [|split]].
  - intros pre k tv post kwargs Hk Hpre. unfold _to_dataclass in *.
    rewrite to_dataclass_loop_app, Hpre. simpl.
    apply fields_get_undeclared in Hk. simpl in Hk. now rewrite Hk.
  - intros item H. now apply to_dataclass_loop_undeclared.
  - exact Hf.
  - intros partition_key sort_key w H. unfold get, get_key.
    now rewrite (Hf _ partition_key H).
Qed.

(** ** [get] *)



Lemma name_eqb_eq (a b : name) : name_eqb a b = true <-> a = b.
Proof.
  destruct a as [x|], b as [y|]; simpl; try (split; congruence).
  rewrite String.eqb_eq. split; congruence.
Qed.

(** C7 (amended).  An entry of the key is the declared type's registry
    tag over the registry encoding of the value coerced to the declared
    type.  Without a sort key the key is the partition-key entry alone;
    with a sort key whose name differs from the partition key's it is
    the partition-key entry followed by the sort-key entry.  That key is
    what [get] passes to [get_item]. *)
Theorem get_key_entries (cls : dataclass backend ack) (partition_key sort_key : pyval) :
  let pkn := partition_key_name (dynamoclass_params cls) in
  let skn := sort_key_name (dynamoclass_params cls) in
  (forall n f m v,
      fields_get (dataclass_fields cls) n = Some f ->
      type_mapping (type f) = Ok m ->
      _dataclass_field_to_dynamo_field cls n v
      = (c <- py_call (type f) v ;; e <- fn m c ;; Ok [(key m, e)]))
  /\ (skn = None ->
      get_key cls partition_key sort_key
      = (pk <- _dataclass_field_to_dynamo_field cls pkn partition_key ;;
         Ok [(pkn, pk)]))
  /\ (skn <> None -> skn <> pkn ->
      get_key cls partition_key sort_key
      = (pk <- _dataclass_field_to_dynamo_field cls pkn partition_key ;;
         sk <- _dataclass_field_to_dynamo_field cls skn sort_key ;;
         Ok [(pkn, pk); (skn, sk)]))
  /\ (forall k w,
        get_key cls partition_key sort_key = Ok k ->
        calls (snd (get cls partition_key sort_key w))
        = (calls w ++ [GetItem {| get_TableName := table_name (dynamoclass_params cls);
                                  get_Key := k |}])%list).
Proof.
  intros pkn skn. split; [|split; [|split]].
  - intros n f m v Hf Hm. unfold _dataclass_field_to_dynamo_field.
    rewrite Hf, Hm. reflexivity.
  - intros Hs. unfold get_key. fold skn. rewrite Hs. fold pkn.
    destruct (_dataclass_field_to_dynamo_field cls pkn partition_key); reflexivity.
  - intros Hs Hne. unfold get_key. fold skn pkn.
    destruct skn as [s|] eqn:E; [|congruence].
    destruct (_dataclass_field_to_dynamo_field cls pkn partition_key); simpl; [|reflexivity].
    destruct (_dataclass_field_to_dynamo_field cls (Some s) sort_key); simpl; [|reflexivity].
    destruct (name_eqb pkn (Some s)) eqn:En; [|reflexivity].
    apply name_eqb_eq in En. congruence.
  - intros k w Hk. unfold get. rewrite Hk. unfold invoke.
    destruct (get_item _ _ _) as [[[i|]|e] b]; reflexivity.
Qed.

(** ** [query] *)

Lemma mapM_ok_Forall2 {A B} (f : A -> result B) (l : list A) (r : list B) :
  mapM f l = Ok r -> Forall2 (fun x y => f x = Ok y) l r.
Proof.
  revert r. induction l as [|x l IH]; simpl; intros r H.
  - injection H as <-. constructor.
  - apply bind_ok in H as (y & Hy & H). apply bind_ok in H as (ys & Hys & [= <-]).
    constructor; auto.
Qed.

Lemma mapM_ext {A B} (f g : A -> result B) (l : list A) :
  (forall x, f x = g x) -> mapM f l = mapM g l.
Proof.
  intros H. induction l as [|x l IH]; simpl; [reflexivity|]. now rewrite H, IH.
Qed.

Lemma render_with_sort_key (cls : dataclass backend ack) (sk : name) (item : wire_item) :
  render (with_sort_key cls sk) item = render cls item.
Proof.
  unfold render, _to_dataclass. generalize (@nil (string * pyval)) as kwargs.
  assert (E : forall kwargs,
             _to_dataclass_loop (with_sort_key cls sk) item kwargs
             = _to_dataclass_loop cls item kwargs).
  { induction item as [|[k tv] item IH]; intros kwargs; simpl; [reflexivity|].
    destruct (dict_get String.eqb (dataclass_fields cls) k) as [f|]; [|reflexivity].
    destruct (first_value tv) as [v|]; simpl; [|reflexivity].
    destruct (if pykey_eqb (type f) (KType Tdict) then py_json_loads v else Ok v)
      as [v'|]; simpl; [|reflexivity].
    destruct (py_call (type f) v') as [v''|]; simpl; [apply IH | reflexivity]. }
  intros kwargs. rewrite E. reflexivity.
Qed.

Lemma query_with_sort_key (cls : dataclass backend ack) (sk : name)
    (partition_key index : pyval) (w : world backend) :
  query (with_sort_key cls sk) partition_key index w = query cls partition_key index w.
Proof.
  unfold query.
  cbn [with_sort_key dynamoclass_params partition_key_name table_name
       dataclass_fields dynamoclass_client].
  lazy zeta.
  match goal with
  | |- match ?x with Ok _ => _ | Raise _ => _ end = _ => destruct x as [t|e]
  end; [|reflexivity].
  destruct (py_str partition_key) as [val|e]; [|reflexivity].
  unfold invoke.
  match goal with
  | |- (let (_, _) := (let (_, _) := ?c in _) in _) = _ => destruct c as [[l|e] b]
  end; [|reflexivity].
  cbn [store calls]. f_equal. apply mapM_ext. intros x. apply render_with_sort_key.
Qed.

(** C8.  When the partition key's declared type keys the registry and
    [str] returns the text [s] on the partition value, [query] makes
    one call, whose condition is the partition key name followed by
    [ = :val] and whose only value is [:val], holding [s]; the sort key
    name plays no part.  The items answered are rendered in order, and
    no item gives the empty list.  When [str] raises on the partition
    value, [query] raises the same and makes no call. *)
Theorem query_partition_key_only (cls : dataclass backend ack)
    (partition_key index : pyval) (w : world backend) (f : field) (m : mapping)
    (s : string) :
  let pkn := partition_key_name (dynamoclass_params cls) in
  fields_get (dataclass_fields cls) pkn = Some f ->
  type_mapping (type f) = Ok m ->
  py_str partition_key = Ok s ->
  let r := {| query_TableName := table_name (dynamoclass_params cls);
              query_KeyConditionExpression := name_str pkn ++ " = :val";
              query_ExpressionAttributeValues := [(":val", [(key m, VStr s)])];
              query_IndexName := if py_bool index then Some index else None |} in
  let w' b := {| store := b; calls := (calls w ++ [Query r])%list |} in
  (forall b items,
      client_query (dynamoclass_client cls) r (store w) = (Ok items, b) ->
      query cls partition_key index w = (mapM (render cls) items, w' b)
      /\ forall l, mapM (render cls) items = Ok l ->
                   Forall2 (fun i x => render cls i = Ok x) items l)
  /\ (forall b,
        client_query (dynamoclass_client cls) r (store w) = (Ok [], b) ->
        query cls partition_key index w = (Ok [], w' b))
  /\ (forall sk, query (with_sort_key cls sk) partition_key index w
                 = query cls partition_key index w)
  /\ (forall unprintable e w0,
        py_str unprintable = Raise e ->
        query cls unprintable index w0 = (Raise e, w0)).
Proof.
  intros pkn Hf Hm Hs r w'.
  assert (Hq : forall b items,
             client_query (dynamoclass_client cls) r (store w) = (Ok items, b) ->
             query cls partition_key index w = (mapM (render cls) items, w' b)).
  { intros b items Hb. unfold query. fold pkn. rewrite Hf. simpl. rewrite Hm. simpl.
    rewrite Hs. fold r. unfold invoke. rewrite Hb. reflexivity. }
  split; [|split; [|split]].
  - intros b items Hb. split; [now apply Hq|]. intros l. apply mapM_ok_Forall2.
  - intros b Hb. apply (Hq b [] Hb).
  - intros sk. apply query_with_sort_key.
  - intros v e w0 He. unfold query. fold pkn. rewrite Hf. simpl. rewrite Hm. simpl.
    rewrite He. reflexivity.
Qed.

(** ** The sort key argument of [get] *)

(** C10.  A call of [get] without the keyword [sort_key] is a
    [TypeError] and reaches no client, whatever the class declares.  On
    a class without sort key name the value passed as [sort_key] has no
    effect on the key or on the outcome. *)
Theorem get_sort_key_argument (cls : dataclass backend ack) :
  (forall kw w,
      dict_get String.eqb kw "sort_key" = None ->
      call_get cls kw w = (Raise TypeError, w))
  /\ (forall partition_key sort_key w,
        call_get cls [("partition_key", partition_key); ("sort_key", sort_key)] w
        = get cls partition_key sort_key w)
  /\ (sort_key_name (dynamoclass_params cls) = None ->
      forall partition_key s1 s2,
        get_key cls partition_key s1 = get_key cls partition_key s2
        /\ forall w, get cls partition_key s1 w = get cls partition_key s2 w).
Proof.
  split; [|split].
  - intros kw w H. unfold call_get. rewrite H.
    destruct (keywords_within _ kw); [|reflexivity].
    destruct (dict_get String.eqb kw "partition_key"); reflexivity.
  - reflexivity.
  - intros Hs partition_key s1 s2.
    assert (E : get_key cls partition_key s1 = get_key cls partition_key s2).
    { unfold get_key. rewrite Hs. reflexivity. }
    split; [exact E|]. intros w. unfold get. rewrite E. reflexivity.
Qed.

(** ** Round trip *)









End Properties.

(** * The properties on the example classes *)

Lemma declared_user_id : declared (decl_fields user_decl) (Some "id").
Proof. exists "id". split; [reflexivity | simpl; auto]. Qed.

(** Registration of [User] on [id] succeeds. *)
Lemma process_class_key_fields_witness :
  declared (decl_fields user_decl) (Some "id")
  /\ is_ok (_process_class (fun _ => Ok (canned_client None [])) user_decl
              (Some "users") (Some "id") None None) = true.
Proof.
  split; [exact declared_user_id|].
  destruct (process_class_key_fields (fun _ => Ok (canned_client None [])) user_decl
              (Some "users") (Some "id") None None) as (_ & _ & _ & H).
  apply (H declared_user_id (or_introl eq_refl) (canned_client None [])). reflexivity.
Defined.

(** An instance with a list in a field does not encode. *)
Lemma to_dynamo_unsupported_witness :
  Forall (fun kv : string * pyval => within_limit (snd kv) = true)
    [("id", VStr "u1"); ("n", VInt 42); ("tags", VList [])]
  /\ registered (type_of (VList [])) = false
  /\ exists t, registered t = false
               /\ _to_dynamo [("id", VStr "u1"); ("n", VInt 42); ("tags", VList [])]
                  = Raise (KeyError (KType t)).
Proof.
  assert (H : Forall (fun kv : string * pyval => within_limit (snd kv) = true)
                [("id", VStr "u1"); ("n", VInt 42); ("tags", VList [])]).
  { repeat constructor. }
  split; [exact H|]. split; [reflexivity|].
  apply (proj1 (to_dynamo_unsupported
                  [("id", VStr "u1"); ("n", VInt 42); ("tags", VList [])]
                  (User (canned_client None []))) H).
  exists ("tags", VList []). split; [simpl; auto | reflexivity].
Defined.

(** Tags are not read: [BOGUS] decodes as [S] does. *)
Lemma to_dataclass_ignores_tags_witness :
  same_values [("id", [("S", VStr "u1")])] [("id", [("BOGUS", VStr "u1")])]
  /\ _to_dataclass (User (canned_client None [])) [("id", [("S", VStr "u1")])]
     = _to_dataclass (User (canned_client None [])) [("id", [("BOGUS", VStr "u1")])].
Proof.
  assert (H : same_values [("id", [("S", VStr "u1")])] [("id", [("BOGUS", VStr "u1")])]).
  { repeat constructor. }
  split; [exact H|].
  exact (proj1 (to_dataclass_ignores_tags (User (canned_client None [])) _ _ H)).
Defined.

(** The first undeclared key of an item is reported when what precedes
    it decodes. *)
Lemma undeclared_field_errors_witness :
  ~ declared (dataclass_fields (Order (canned_client None []))) (Some "ghost")
  /\ _to_dataclass (Order (canned_client None [])) [("ts", [("N", VStr "100")])]
     = Ok [("ts", VInt 100)]
  /\ _to_dataclass (Order (canned_client None []))
       [("ts", [("N", VStr "100")]); ("ghost", [("S", VStr "x")])]
     = Raise (ValueError
                "Cannot render field with name ghost! No such field name found for <class 'Order'>!").
Proof.
  assert (H : ~ declared (dataclass_fields (Order (canned_client None []))) (Some "ghost")).
  { apply fields_mem_undeclared. reflexivity. }
  split; [exact H|]. split; [reflexivity|].
  exact (proj1 (undeclared_field_errors (Order (canned_client None [])))
           [("ts", [("N", VStr "100")])] "ghost" [("S", VStr "x")] []
           [("ts", VInt 100)] H eq_refl).
Defined.

(** An undeclared key after an entry that fails to decode is not
    reported: the exception is the one of the earlier entry. *)
Lemma undeclared_field_after_failure :
  _to_dataclass (Order (canned_client None []))
    [("ts", [("M", VDict [])]); ("ghost", [("S", VStr "x")])]
  = Raise TypeError
  /\ Raise TypeError
     <> @Raise (list (string * pyval))
          (ValueError (no_such_field (Some "ghost") (Order (canned_client None [])))).
Proof. split; [reflexivity | discriminate]. Qed.



(** [Order]: the key has the two entries. *)
Lemma get_key_entries_witness :
  sort_key_name (dynamoclass_params (Order (canned_client None []))) <> None
  /\ sort_key_name (dynamoclass_params (Order (canned_client None [])))
     <> partition_key_name (dynamoclass_params (Order (canned_client None [])))
  /\ get_key (Order (canned_client None [])) (VStr "c1") (VInt 100)
     = Ok [(Some "customer", [("S", VStr "c1")]); (Some "ts", [("N", VStr "100")])].
Proof.
  assert (H1 : sort_key_name (dynamoclass_params (Order (canned_client None []))) <> None)
    by discriminate.
  assert (H2 : sort_key_name (dynamoclass_params (Order (canned_client None [])))
               <> partition_key_name (dynamoclass_params (Order (canned_client None []))))
    by discriminate.
  split; [exact H1|]. split; [exact H2|].
  destruct (get_key_entries (Order (canned_client None [])) (VStr "c1") (VInt 100))
    as (_ & _ & H & _).
  rewrite (H H1 H2). reflexivity.
Defined.

(** [Twin]: the partition key and the sort key share a name, and the key
    holds the entry of the sort value only. *)
Lemma get_key_same_name :
  get_key (Twin (canned_client None [])) (VStr "a") (VStr "b")
  = Ok [(Some "id", [("S", VStr "b")])]
  /\ _dataclass_field_to_dynamo_field (Twin (canned_client None [])) (Some "id") (VStr "a")
     = Ok [("S", VStr "a")]
  /\ dict_get name_eqb [(Some "id", [("S", @VStr integral_floats "b")])] (Some "id")
     <> Some [("S", VStr "a")].
Proof. split; [reflexivity|]. split; [reflexivity | discriminate]. Qed.

(** [User]: a query that matches nothing. *)
Lemma query_partition_key_only_witness :
  fields_get (dataclass_fields (User (canned_client None []))) (Some "id")
  = Some (plain Tstr)
  /\ query (User (canned_client None [])) (VStr "u1") VNone start
     = (Ok [],
        {| store := tt;
           calls := [Query {| query_TableName := Some "users";
                              query_KeyConditionExpression := "id = :val";
                              query_ExpressionAttributeValues :=
                                [(":val", [("S", VStr "u1")])];
                              query_IndexName := None |}] |}).
Proof.
  split; [reflexivity|].
  destruct (query_partition_key_only (User (canned_client None [])) (VStr "u1") VNone
              start (plain Tstr)
              {| key := "S"; fn := fun x => s <- py_str x ;; Ok (VStr s) |} "u1"
              eq_refl eq_refl eq_refl) as (_ & H & _ & _).
  exact (H tt eq_refl).
Defined.

(** [User] has no sort key: the argument is ignored. *)
Lemma get_sort_key_argument_witness :
  sort_key_name (dynamoclass_params (User (canned_client None []))) = None
  /\ get (User (canned_client None [])) (VStr "u1") (VInt 1) start
     = get (User (canned_client None [])) (VStr "u1") (VStr "other") start.
Proof.
  split; [reflexivity|].
  destruct (get_sort_key_argument (User (canned_client None []))) as (_ & _ & H).
  exact (proj2 (H eq_refl (VStr "u1") (VInt 1) (VStr "other")) start).
Defined.




(** * Further properties of the module *)

Section Further.
Context {F : PyFloat} {L : PyLib} {backend ack : Type}.

(** ** [_to_dynamo] and [save] *)

Lemma spec_encode_tag (v : pyval) (t : tagged) :
  registered (type_of v) = true -> spec_encode v = Some t ->
  exists tag val, t = [(tag, val)] /\ In tag written_tags.
Proof.
  destruct v as [s|z|x|b|d|b| |l]; simpl; intros H [= <-];
    try (vm_compute in H; discriminate);
    do 2 eexists; (split; [reflexivity|]); simpl; auto 6.
Qed.

(** When [_to_dynamo] returns, the wire item has the field names of the
    instance in the same order, and the value under each is a dictionary
    of exactly one entry, tagged [S], [N], [B], [M] or [BOOL]: the tag
    [NULL] is never written. *)
Theorem to_dynamo_shape (self : instance) (w : wire_item) :
  _to_dynamo self = Ok w ->
  map fst w = map fst self
  /\ Forall (fun e : string * tagged =>
               exists tag val, snd e = [(tag, val)] /\ In tag written_tags) w.
Proof.
  intros H. apply to_dynamo_ok in H.
  induction H as [|kv e self w (Hk & He & Hr & _) _ (IH1 & IH2)]; simpl.
  - split; constructor.
  - split.
    + now rewrite Hk, IH1.
    + constructor; [|assumption]. now apply (spec_encode_tag (snd kv)).
Qed.

(** [save] makes no call when the instance does not encode: the world
    is left as it is, and the exception is that of the first field that
    does not encode, the [KeyError] of the lookup for a value whose type
    does not key [TYPE_MAPPING] and the [ValueError] of [str] for an
    integer beyond the limit of digits.  On an instance whose values all
    have registered types, its integers within the limit, [save] makes
    one [put_item] call, with the table name of the class and the
    encoded instance, and returns the client's answer. *)
Theorem save_put_item (cls : dataclass backend ack) (self : instance)
    (w : world backend) :
  (forall e, _to_dynamo self = Raise e -> save cls self w = (Raise e, w))
  /\ (forall pre k v post wpre,
        self = (pre ++ (k, v) :: post)%list ->
        _to_dynamo pre = Ok wpre ->
        (registered (type_of v) = false ->
         save cls self w = (Raise (KeyError (KType (type_of v))), w))
        /\ (within_limit v = false ->
            save cls self w = (Raise too_many_digits, w)))
  /\ (Forall (fun kv => registered (type_of (snd kv)) = true) self ->
      Forall (fun kv => within_limit (snd kv) = true) self ->
      exists item,
        _to_dynamo self = Ok item
        /\ forall a b,
             put_item (dynamoclass_client cls)
               {| put_TableName := table_name (dynamoclass_params cls); put_Item := item |}
               (store w) = (a, b) ->
             save cls self w
             = (a, {| store := b;
                      calls := (calls w ++
                                [PutItem {| put_TableName := table_name (dynamoclass_params cls);
                                            put_Item := item |}])%list |})).
Proof.
  assert (Hraise : forall e, _to_dynamo self = Raise e -> save cls self w = (Raise e, w)).
  { intros e E. unfold save. now rewrite E. }
  split; [exact Hraise|]. split.
  - intros pre k v post wpre -> Hpre. split; intros Hv; apply Hraise.
    + now apply to_dynamo_after_prefix with (w := wpre).
    + rewrite to_dynamo_app, Hpre, to_dynamo_cons. simpl.
      destruct v; try discriminate. unfold to_dynamo_value. simpl in *.
      unfold int_str. now rewrite Hv.
  - intros Hr Hl. destruct (to_dynamo_registered self Hr Hl) as (item & E & _).
    exists item. split; [assumption|]. intros a b Hb. unfold save, invoke.
    rewrite E, Hb. reflexivity.
Qed.

(** ** [_to_dataclass] and instantiation *)

Lemma dict_set_keys {V} (d : list (string * V)) (k k' : string) (v : V) :
  In k' (map fst (dict_set String.eqb d k v)) <-> k' = k \/ In k' (map fst d).
Proof.
  induction d as [|[k0 v0] d IH]; simpl.
  - intuition.
  - destruct (String.eqb_spec k0 k) as [->|Hne]; simpl.
    + intuition.
    + rewrite IH. intuition.
Qed.

Lemma dict_set_nodup {V} (d : list (string * V)) (k : string) (v : V) :
  NoDup (map fst d) -> NoDup (map fst (dict_set String.eqb d k v)).
Proof.
  induction d as [|[k0 v0] d IH]; simpl; intros H.
  - constructor; [intros [] | constructor].
  - inversion H as [|? ? Hk0 Hd]; subst.
    destruct (String.eqb_spec k0 k) as [->|Hne]; simpl.
    + constructor; assumption.
    + constructor; [|auto]. rewrite dict_set_keys. intros [->|Hin]; auto.
Qed.

Lemma to_dataclass_loop_keys (cls : dataclass backend ack) (item : wire_item) :
  forall kwargs kw,
    _to_dataclass_loop cls item kwargs = Ok kw ->
    (forall k, In k (map fst kw) <-> In k (map fst kwargs) \/ In k (map fst item))
    /\ (NoDup (map fst kwargs) -> NoDup (map fst kw))
    /\ (forall k, In k (map fst item) -> declared (dataclass_fields cls) (Some k)).
Proof.
  induction item as [|[k tv] item IH]; intros kwargs kw H; simpl in H.
  - injection H as <-. simpl. intuition.
  - destruct (dict_get String.eqb (dataclass_fields cls) k) as [f|] eqn:Hk; [|discriminate].
    apply bind_ok in H as (v & _ & H). apply bind_ok in H as (v' & _ & H).
    apply bind_ok in H as (v'' & _ & H).
    destruct (IH _ _ H) as (Hkeys & Hnd & Hdecl). split; [|split].
    + intros k0. rewrite Hkeys, dict_set_keys. simpl. intuition.
    + intros Hn. apply Hnd. now apply dict_set_nodup.
    + intros k0 [<-|Hin]; [|auto].
      apply fields_mem_declared. unfold fields_mem. simpl. now rewrite Hk.
Qed.

Lemma to_dataclass_item_keys (cls : dataclass backend ack) (item : wire_item)
    (kw : list (string * pyval)) :
  _to_dataclass cls item = Ok kw ->
  forall k, In k (map fst kw) <-> In k (map fst item).
Proof.
  intros H k. destruct (to_dataclass_loop_keys cls item [] kw H) as (Hkeys & _ & _).
  rewrite Hkeys. simpl. intuition.
Qed.

(** When [_to_dataclass] returns, the keywords are the keys of the item:
    each one once, and each one a declared field. *)
Theorem to_dataclass_keys (cls : dataclass backend ack) (item : wire_item)
    (kw : list (string * pyval)) :
  _to_dataclass cls item = Ok kw ->
  (forall k, In k (map fst kw) <-> In k (map fst item))
  /\ NoDup (map fst kw)
  /\ (forall k, In k (map fst kw) -> declared (dataclass_fields cls) (Some k)).
Proof.
  intros H. destruct (to_dataclass_loop_keys cls item [] kw H) as (_ & Hnd & Hdecl).
  pose proof (to_dataclass_item_keys cls item kw H) as E.
  split; [exact E|]. split; [apply Hnd; constructor|].
  intros k Hk. apply Hdecl. now apply E.
Qed.





(** ** Fields that do not survive a round trip *)

(** An instance does not come back from its encoding once a field
    declared [bytes] holds bytes, or a field declared [dict] holds a
    dictionary: [_to_dynamo] writes the [str] of the bytes, which
    [bytes] rejects, and the dictionary itself, which [json.loads]
    rejects.  When the fields before it decode, decoding raises
    [TypeError]. *)
Theorem bytes_and_dict_do_not_round_trip (cls : dataclass backend ack)
    (pre post : instance) (k : string) (v : pyval) (f : field)
    (wpre wpost : wire_item) (kw : list (string * pyval)) :
  _to_dynamo pre = Ok wpre ->
  _to_dataclass cls wpre = Ok kw ->
  _to_dynamo post = Ok wpost ->
  fields_get (dataclass_fields cls) (Some k) = Some f ->
  type f = KType (type_of v) ->
  type_of v = Tbytes \/ type_of v = Tdict ->
  is_ok (_to_dynamo (pre ++ (k, v) :: post)%list) = true
  /\ (w <- _to_dynamo (pre ++ (k, v) :: post)%list ;; _to_dataclass cls w)
     = Raise TypeError.
Proof.
  intros Hpre Hkw Hpost Hf Ht Hv.
  rewrite to_dynamo_app, Hpre, to_dynamo_cons, Hpost. simpl.
  assert (E : exists e,
             to_dynamo_value v = Ok e
             /\ forall kwargs rest,
                  _to_dataclass_loop cls ((k, e) :: rest) kwargs = Raise TypeError).
  { simpl in Hf. unfold to_dynamo_value.
    destruct v as [s|z|x|b|d|b| |l]; simpl in Hv, Ht; destruct Hv as [Hv|Hv];
      try discriminate; eexists; (split; [reflexivity|]);
      intros kwargs rest; simpl; rewrite Hf, Ht; reflexivity. }
  destruct E as (e & He & Hloop). rewrite He. simpl. split; [reflexivity|].
  unfold _to_dataclass in *.
  rewrite (to_dataclass_loop_app cls wpre ((k, e) :: wpost) []), Hkw. simpl. apply Hloop.
Qed.

(** A field annotated [None] keys the registry but cannot be used:
    encoding a key for it raises [TypeError], since [None] is not
    callable, and so does decoding an attribute of that name once the
    entries before it decode. *)
Theorem none_annotation_unusable (cls : dataclass backend ack) (k : string) (f : field) :
  fields_get (dataclass_fields cls) (Some k) = Some f ->
  type f = KNone ->
  (forall v, _dataclass_field_to_dynamo_field cls (Some k) v = Raise TypeError)
  /\ (forall pre kw tag v more post,
        _to_dataclass cls pre = Ok kw ->
        _to_dataclass cls (pre ++ (k, (tag, v) :: more) :: post)%list = Raise TypeError).
Proof.
  intros Hf Ht. split.
  - intros v. unfold _dataclass_field_to_dynamo_field. rewrite Hf, Ht. reflexivity.
  - intros pre kw tag v more post Hkw. unfold _to_dataclass in *.
    rewrite to_dataclass_loop_app, Hkw. simpl. simpl in Hf. rewrite Hf, Ht. reflexivity.
Qed.

(** ** [save] followed by [get] *)


(** ** [query] against [get] *)

Lemma query_calls (cls : dataclass backend ack) (partition_key index : pyval)
    (w : world backend) (f : field) (m : mapping) (s : string) :
  fields_get (dataclass_fields cls) (partition_key_name (dynamoclass_params cls)) = Some f ->
  type_mapping (type f) = Ok m ->
  py_str partition_key = Ok s ->
  exists r,
    calls (snd (query cls partition_key index w)) = (calls w ++ [Query r])%list
    /\ query_ExpressionAttributeValues r = [(":val", [(key m, VStr s)])].
Proof.
  intros Hf Hm Hs. unfold query. rewrite Hf. simpl. rewrite Hm. simpl. rewrite Hs.
  unfold invoke.
  eexists. destruct (client_query _ _ _) as [[l|e] b]; simpl; split; reflexivity.
Qed.

(** For a partition value of the declared type of the partition key,
    that type being [str], [int], [float] or [bytes], the value [query]
    sends under [:val] is the entry that [get] puts in its key for the
    same value.  When [str] raises on the value, which it does on an
    integer beyond the limit of digits, neither is sent:
    [_dataclass_field_to_dynamo_field] raises the same exception and
    [query] makes no call. *)
Theorem query_value_matches_get_key (cls : dataclass backend ack) (v : pyval) (f : field) :
  fields_get (dataclass_fields cls) (partition_key_name (dynamoclass_params cls)) = Some f ->
  type f = KType (type_of v) ->
  In (type_of v) [Tstr; Tint; Tfloat; Tbytes] ->
  (forall s, py_str v = Ok s ->
     exists e,
       _dataclass_field_to_dynamo_field cls (partition_key_name (dynamoclass_params cls)) v
       = Ok e
       /\ forall index w,
            exists r,
              calls (snd (query cls v index w)) = (calls w ++ [Query r])%list
              /\ query_ExpressionAttributeValues r = [(":val", e)])
  /\ (forall ex, py_str v = Raise ex ->
        _dataclass_field_to_dynamo_field cls (partition_key_name (dynamoclass_params cls)) v
        = Raise ex
        /\ forall index w, query cls v index w = (Raise ex, w)).
Proof.
  intros Hf Ht Hv.
  assert (E : exists m,
             type_mapping (type f) = Ok m
             /\ (c <- py_call (type f) v ;; e <- fn m c ;; Ok [(key m, e)])
                = (s <- py_str v ;; Ok [(key m, VStr s)])).
  { rewrite Ht.
    destruct v as [s|z|x|b|d|b| |l]; simpl in Hv;
      try (exfalso; intuition discriminate);
      eexists; (split; [reflexivity|]); simpl; try reflexivity.
    destruct (int_str z); reflexivity. }
  destruct E as (m & Hm & Hc).
  assert (Hfield : _dataclass_field_to_dynamo_field cls
                     (partition_key_name (dynamoclass_params cls)) v
                   = (s <- py_str v ;; Ok [(key m, VStr s)])).
  { unfold _dataclass_field_to_dynamo_field. rewrite Hf, Hm. exact Hc. }
  split.
  - intros s Hs. exists [(key m, VStr s)]. split.
    + rewrite Hfield, Hs. reflexivity.
    + intros index w. now apply query_calls with (f := f).
  - intros ex Hex. split.
    + rewrite Hfield, Hex. reflexivity.
    + intros index w. unfold query. rewrite Hf. simpl. rewrite Hm. simpl.
      now rewrite Hex.
Qed.

Lemma int_of_text_invalid (shown s : string) :
  int_of_literal s = None -> exists msg, int_of_text shown s = Raise (ValueError msg).
Proof.
  intros H. unfold int_of_text. rewrite H. simpl.
  destruct (unsigned_part s) as [|c r]; [unfold invalid_int; eauto|].
  destruct (Ascii.eqb c "_"); [unfold invalid_int; eauto|].
  destruct (scan_digits false (String c r)) as [n|]; [|unfold invalid_int; eauto].
  destruct (int_max_str_digits <? n); unfold too_long_literal, invalid_int; eauto.
Qed.

(** [query] does not coerce the partition value.  With an [int]
    partition key and a text on which [int] raises, [get] raises the
    same and reaches no client, while [query] sends the text as it is.
    On a text that is no integer literal [int] raises [ValueError]. *)
Theorem query_does_not_coerce (cls : dataclass backend ack) (s : string) (f : field)
    (sort_key index : pyval) (w : world backend) :
  fields_get (dataclass_fields cls) (partition_key_name (dynamoclass_params cls)) = Some f ->
  type f = KType Tint ->
  (forall e, py_int (VStr s) = Raise e -> get cls (VStr s) sort_key w = (Raise e, w))
  /\ (int_of_literal (ascii_spaces s) = None ->
      exists msg, get cls (VStr s) sort_key w = (Raise (ValueError msg), w))
  /\ exists r,
       calls (snd (query cls (VStr s) index w)) = (calls w ++ [Query r])%list
       /\ query_ExpressionAttributeValues r = [(":val", [("N", VStr s)])].
Proof.
  intros Hf Ht.
  assert (Hget : forall e, py_int (VStr s) = Raise e ->
                           get cls (VStr s) sort_key w = (Raise e, w)).
  { intros e He. unfold get, get_key, _dataclass_field_to_dynamo_field.
    rewrite Hf, Ht. cbn [bind type_mapping of_option dict_get TYPE_MAPPING pykey_eqb
                         pytype_eqb py_call].
    rewrite He. reflexivity. }
  split; [exact Hget|]. split.
  - intros Hs. destruct (int_of_text_invalid (str_repr s) _ Hs) as (msg & Hmsg).
    exists msg. apply Hget. simpl. now rewrite Hmsg.
  - apply (query_calls cls (VStr s) index w f
             {| key := "N"; fn := fun x => t <- py_str x ;; Ok (VStr t) |} s Hf);
      [rewrite Ht|]; reflexivity.
Qed.

(** [query] returns all the items or none: when one of the items the
    client answers does not render, [query] raises the exception of the
    first such item, after the call. *)
Theorem query_first_failure (cls : dataclass backend ack)
    (partition_key index : pyval) (w : world backend) (f : field) (m : mapping)
    (s : string)
    (pre post : list wire_item) (bad : wire_item) (l : list instance) (e : pyexc)
    (b : backend) :
  let pkn := partition_key_name (dynamoclass_params cls) in
  let r := {| query_TableName := table_name (dynamoclass_params cls);
              query_KeyConditionExpression := name_str pkn ++ " = :val";
              query_ExpressionAttributeValues := [(":val", [(key m, VStr s)])];
              query_IndexName := if py_bool index then Some index else None |} in
  fields_get (dataclass_fields cls) pkn = Some f ->
  type_mapping (type f) = Ok m ->
  py_str partition_key = Ok s ->
  client_query (dynamoclass_client cls) r (store w) = (Ok (pre ++ bad :: post)%list, b) ->
  mapM (render cls) pre = Ok l ->
  render cls bad = Raise e ->
  query cls partition_key index w
  = (Raise e, {| store := b; calls := (calls w ++ [Query r])%list |}).
Proof.
  intros pkn r Hf Hm Hs Hq Hpre Hbad. unfold query. fold pkn. rewrite Hf. simpl.
  rewrite Hm. simpl. rewrite Hs. fold r. unfold invoke. rewrite Hq.
  rewrite mapM_app, Hpre. simpl. rewrite Hbad. reflexivity.
Qed.

(** ** Calls to the client *)

(** [get], [query] and [save] each make at most one call to the client,
    of their own operation; when they make none the world is as it was. *)
Theorem one_call_at_most (cls : dataclass backend ack) (w : world backend) :
  (forall partition_key sort_key,
      let w' := snd (get cls partition_key sort_key w) in
      w' = w \/ exists r, calls w' = (calls w ++ [GetItem r])%list)
  /\ (forall partition_key index,
        let w' := snd (query cls partition_key index w) in
        w' = w \/ exists r, calls w' = (calls w ++ [Query r])%list)
  /\ (forall self,
        let w' := snd (save cls self w) in
        w' = w \/ exists r, calls w' = (calls w ++ [PutItem r])%list).
Proof.
  split; [|split].
  - intros pk sk. unfold get. destruct (get_key cls pk sk) as [k|e]; [|now left].
    right. unfold invoke. eexists.
    destruct (get_item _ _ _) as [[[i|]|e] b]; reflexivity.
  - intros pk index. unfold query.
    match goal with
    | |- context [match ?x with Ok _ => _ | Raise _ => _ end] => destruct x as [t|e]
    end; [|now left].
    destruct (py_str pk) as [val|e]; [|now left].
    right. unfold invoke. eexists.
    destruct (client_query _ _ _) as [[l|e] b]; reflexivity.
  - intros self. unfold save. destruct (_to_dynamo self) as [item|e]; [|now left].
    right. unfold invoke. eexists. destruct (put_item _ _ _) as [a b]. reflexivity.
Qed.

(** ** The decorator *)

(** Applied to a class or called with keywords first, [dynamoclass]
    registers the class in the same way, and [region] has no effect.
    Without [partition_key_name] no class can be registered: the
    [Exception] of line 28 is raised for the name [None]. *)
Theorem dynamoclass_forms
    (boto3_client : list (string * string) -> result (client backend ack))
    (cls : declaration) (tn pk sk region region' url : name) :
  (forall wrap r,
      dynamoclass boto3_client None tn pk sk region url = Wrap wrap ->
      dynamoclass boto3_client (Some cls) tn pk sk region' url = Wrapped r ->
      wrap cls = r)
  /\ dynamoclass boto3_client (Some cls) tn None sk region url
     = Wrapped (Raise (Exception
                         ("Partition Key Name " ++ String dquote ("None"
                            ++ String dquote " not found in class fields")))).
Proof.
  split.
  - intros wrap r [= <-] [= <-]. reflexivity.
  - reflexivity.
Qed.

End Further.

(** * The further properties on the example classes *)

Lemma to_dynamo_shape_witness :
  _to_dynamo [("id", VStr "u1"); ("n", VInt 3)]
  = Ok [("id", [("S", VStr "u1")]); ("n", [("N", VStr "3")])]
  /\ map fst [("id", [("S", @VStr integral_floats "u1")]); ("n", [("N", VStr "3")])]
     = map fst [("id", @VStr integral_floats "u1"); ("n", VInt 3)].
Proof.
  split; [reflexivity|].
  exact (proj1 (to_dynamo_shape [("id", VStr "u1"); ("n", VInt 3)]
                  [("id", [("S", VStr "u1")]); ("n", [("N", VStr "3")])] eq_refl)).
Defined.

(** [User] with [None] as name: nothing is put. *)
Lemma save_put_item_witness :
  _to_dynamo [("id", VStr "u1")] = Ok [("id", [("S", VStr "u1")])]
  /\ registered (type_of (@VNone integral_floats)) = false
  /\ save (User (canned_client None [])) [("id", VStr "u1"); ("name", VNone)] start
     = (Raise (KeyError (KType TNoneType)), start).
Proof.
  split; [reflexivity|]. split; [reflexivity|].
  exact (proj1 (proj1 (proj2 (save_put_item (User (canned_client None []))
                                [("id", VStr "u1"); ("name", VNone)] start))
                  [("id", VStr "u1")] "name" VNone [] [("id", [("S", VStr "u1")])]
                  eq_refl eq_refl)
           eq_refl).
Defined.

Lemma to_dataclass_keys_witness :
  _to_dataclass (Order (canned_client None []))
    [("customer", [("S", VStr "c1")]); ("ts", [("N", VStr "100")])]
  = Ok [("customer", VStr "c1"); ("ts", VInt 100)]
  /\ NoDup (map fst [("customer", @VStr integral_floats "c1"); ("ts", VInt 100)]).
Proof.
  split; [reflexivity|].
  exact (proj1 (proj2 (to_dataclass_keys (Order (canned_client None []))
                         [("customer", [("S", VStr "c1")]); ("ts", [("N", VStr "100")])]
                         [("customer", VStr "c1"); ("ts", VInt 100)] eq_refl))).
Defined.



(** [Blob]: the payload written by [_to_dynamo] is not read back. *)
Lemma bytes_and_dict_do_not_round_trip_witness :
  _to_dynamo [("id", VStr "b1")] = Ok [("id", [("S", VStr "b1")])]
  /\ _to_dynamo [("meta", VDict [])] = Ok [("meta", [("M", VDict [])])]
  /\ (w <- _to_dynamo [("id", VStr "b1"); ("payload", VBytes [x01]); ("meta", VDict [])] ;;
      _to_dataclass (Blob (canned_client None [])) w)
     = Raise TypeError.
Proof.
  split; [reflexivity|]. split; [reflexivity|].
  apply (bytes_and_dict_do_not_round_trip (Blob (canned_client None []))
           [("id", VStr "b1")] [("meta", VDict [])] "payload" (VBytes [x01])
           (plain Tbytes) [("id", [("S", VStr "b1")])] [("meta", [("M", VDict [])])]
           [("id", VStr "b1")]);
    try reflexivity.
  left. reflexivity.
Defined.

Lemma none_annotation_unusable_witness :
  fields_get (dataclass_fields (Flagged (canned_client None []))) (Some "gone")
  = Some {| type := KNone; default := None |}
  /\ _to_dataclass (Flagged (canned_client None []))
       [("id", [("S", VStr "f1")]); ("gone", [("NULL", VBool true)])]
     = Raise TypeError.
Proof.
  split; [reflexivity|].
  exact (proj2 (none_annotation_unusable (Flagged (canned_client None [])) "gone"
                  {| type := KNone; default := None |} eq_refl eq_refl)
           [("id", [("S", VStr "f1")])] [("id", VStr "f1")] "NULL" (VBool true) [] []
           eq_refl).
Defined.



(** [Order]: the customer is sent alike by [get] and by [query]. *)
Lemma query_value_matches_get_key_witness :
  In (type_of (@VStr integral_floats "c1")) [Tstr; Tint; Tfloat; Tbytes]
  /\ exists e,
       _dataclass_field_to_dynamo_field (Order (canned_client None [])) (Some "customer")
         (VStr "c1") = Ok e
       /\ forall index w,
            exists r,
              calls (snd (query (Order (canned_client None [])) (VStr "c1") index w))
              = (calls w ++ [Query r])%list
              /\ query_ExpressionAttributeValues r = [(":val", e)].
Proof.
  assert (H : In (type_of (@VStr integral_floats "c1")) [Tstr; Tint; Tfloat; Tbytes]).
  { simpl. auto. }
  split; [exact H|].
  exact (proj1 (query_value_matches_get_key (Order (canned_client None [])) (VStr "c1")
                  (plain Tstr) eq_refl eq_refl H) "c1" eq_refl).
Defined.

(** [Event]: the sequence number given as a word. *)
Lemma query_does_not_coerce_witness :
  py_int (VStr "seven")
  = Raise (ValueError "invalid literal for int() with base 10: 'seven'")
  /\ get (Event (canned_client None [])) (VStr "seven") VNone start
     = (Raise (ValueError "invalid literal for int() with base 10: 'seven'"), start).
Proof.
  split; [reflexivity|].
  exact (proj1 (query_does_not_coerce (Event (canned_client None [])) "seven"
                  (plain Tint) VNone VNone start eq_refl eq_refl)
           (invalid_int "'seven'") eq_refl).
Defined.

(** [User]: the second item answered has an undeclared attribute. *)
Lemma query_first_failure_witness :
  render (User (canned_client None [])) [("ghost", [("S", VStr "x")])]
  = Raise (ValueError (no_such_field (Some "ghost") (User (canned_client None []))))
  /\ fst (query
            (User (canned_client None
                     [[("id", [("S", VStr "u1")]); ("name", [("S", VStr "Ann")])];
                      [("ghost", [("S", VStr "x")])]]))
            (VStr "u1") VNone start)
     = Raise (ValueError (no_such_field (Some "ghost") (User (canned_client None [])))).
Proof.
  split; [reflexivity|].
  rewrite (query_first_failure
             (User (canned_client None
                      [[("id", [("S", VStr "u1")]); ("name", [("S", VStr "Ann")])];
                       [("ghost", [("S", VStr "x")])]]))
             (VStr "u1") VNone start (plain Tstr)
             {| key := "S"; fn := fun x => s <- py_str x ;; Ok (VStr s) |} "u1"
             [[("id", [("S", VStr "u1")]); ("name", [("S", VStr "Ann")])]] []
             [("ghost", [("S", VStr "x")])]
             [[("id", VStr "u1"); ("name", VStr "Ann")]]
             (ValueError (no_such_field (Some "ghost") (User (canned_client None []))))
             tt eq_refl eq_refl eq_refl eq_refl eq_refl eq_refl).
  reflexivity.
Defined.

(** [User] decorated in either way. *)
Lemma dynamoclass_forms_witness :
  exists wrap r,
    dynamoclass (fun _ => Ok (canned_client None [])) None
      (Some "users") (Some "id") None None None = Wrap wrap
    /\ dynamoclass (fun _ => Ok (canned_client None [])) (Some user_decl)
         (Some "users") (Some "id") None (Some "eu-west-1") None = Wrapped r
    /\ wrap user_decl = r.
Proof.
  do 2 eexists. split; [reflexivity|]. split; [reflexivity|].
  exact (proj1 (dynamoclass_forms (fun _ => Ok (canned_client None [])) user_decl
                  (Some "users") (Some "id") None None (Some "eu-west-1") None)
           _ _ eq_refl eq_refl).
Defined.
